(** * MoodAPI: dashboard client, history store, cache and rate limiter

    A shallow embedding of the MoodAPI dashboard client: the types and the
    [ApiService] class ([src/unnamed/part_000], [src/unnamed/part_001]),
    the logs page ([src/frontend/src/pages/LogsPage.tsx]) and the dashboard
    page (second component of [src/frontend/src/pages/SettingsPage.tsx]);
    and of the serving core it talks to (record store, analytics aggregator,
    result cache, rate limiter), whose Python sources are not part of the
    tree and which is modelled from the specification.

    JavaScript numbers that hold counts, page numbers and day counts are
    integers in [Z] or [nat]; confidences are IEEE-754 doubles and are kept
    as primitive floats, so that [>=] and [/] behave as they do in the
    browser.  Strings are [string], the text's bytes in UTF-8: for
    well-formed texts one occurs in another on these bytes exactly when it
    does on the code units the browser compares.  The functions of the
    browser that rest on the tables of Unicode ([toLowerCase], [trim]) are
    parameters of the definitions that call them.  A field that may be
    [undefined] or [null] is an [option]. *)

From Stdlib Require Import ZArith Ascii String List Lia.
From Stdlib Require Import Floats.PrimFloat Numbers.Cyclic.Int63.Uint63.
From stdpp Require Import gmap strings list pretty.

#[local] Set Warnings "-inexact-float".

Local Open Scope Z_scope.
Local Open Scope string_scope.

(* ===================================================================== *)
(** * Types ([src/unnamed/part_000], third document)                      *)
(* ===================================================================== *)

Module Types.

(** [type Sentiment = 'positive' | 'neutral' | 'negative'] *)
Inductive Sentiment := positive | neutral | negative.

#[export] Instance Sentiment_eq_dec : EqDecision Sentiment.
Proof. solve_decision. Defined.

(** The JSON spelling of a label. *)
Definition label (s : Sentiment) : string :=
  match s with
  | positive => "positive"
  | neutral => "neutral"
  | negative => "negative"
  end.

(** [interface SentimentScore { label; score }] *)
Record SentimentScore := {
  score_label : string;
  score : float
}.

(** A history item as the backend sends it.  The interface [HistoryItem]
    declares [text: string], but the payload carries [text_preview] and may
    leave [text] out, which is what [getHistory] repairs. *)
Record RawHistoryItem := {
  raw_id : string;
  raw_text : option string;
  raw_text_preview : option string;
  raw_sentiment : string;
  raw_confidence : float;
  raw_language : string;
  raw_created_at : string;
  raw_all_scores : option (list SentimentScore)
}.

(** [interface HistoryItem], as the pages use it: [text] is a string. *)
Record HistoryItem := {
  id : string;
  text : string;
  text_preview : option string;
  sentiment : string;
  confidence : float;
  language : string;
  created_at : string;
  all_scores : option (list SentimentScore)
}.

(** [interface HistoryFilters] *)
Record HistoryFilters := {
  f_sentiment : option Sentiment;
  f_language : option string;
  f_min_confidence : option float;
  f_max_confidence : option float;
  f_start_date : option string;
  f_end_date : option string;
  f_page : option Z;
  f_limit : option Z;
  f_sort_by : option string;
  f_sort_order : option string
}.

Definition no_filters : HistoryFilters :=
  {| f_sentiment := None; f_language := None;
     f_min_confidence := None; f_max_confidence := None;
     f_start_date := None; f_end_date := None;
     f_page := None; f_limit := None;
     f_sort_by := None; f_sort_order := None |}.

(** [interface PaginationMeta] *)
Record PaginationMeta := {
  page : Z;
  limit : Z;
  total : Z;
  pages : Z;
  has_next : bool;
  has_prev : bool
}.

(** [interface HistoryResponse], parametrised by the item type: the
    backend's payload holds raw items, [getHistory] returns repaired ones.
    [pagination] is optional at run time ([pagination?.total] in the
    dashboard). *)
Record HistoryResponse (I : Type) := {
  items : list I;
  pagination : option PaginationMeta
}.
Arguments items {I} _.
Arguments pagination {I} _.

(** The three-label distribution of [StatsResponse]. *)
Record SentimentDistribution := {
  d_positive : nat;
  d_negative : nat;
  d_neutral : nat
}.

(** [interface StatsResponse]; the timestamp is left out (wall clock). *)
Record StatsResponse := {
  total_analyses : Z;
  avg_confidence : float;
  high_confidence_percentage : float;
  sentiment_distribution : SentimentDistribution;
  top_languages : list (string * nat);
  period : string;
  sentiment_trend : list (string * SentimentDistribution)
}.

End Types.
Import Types.

(* ===================================================================== *)
(** * ApiService ([src/unnamed/part_001], second document)                *)
(* ===================================================================== *)

Module ApiService.

(** JavaScript truthiness of a possibly missing string: [undefined],
    [null] and [''] are falsy. *)
Definition truthy (s : option string) : bool :=
  match s with
  | Some EmptyString => false
  | Some _ => true
  | None => false
  end.

(** [a || b] on possibly missing strings. *)
Definition js_or (a b : option string) : option string :=
  if truthy a then a else b.

(** [item.text || item.text_preview || ''] *)
Definition repaired_text (item : RawHistoryItem) : string :=
  match js_or (js_or (raw_text item) (raw_text_preview item)) (Some "") with
  | Some s => s
  | None => ""
  end.

(** [{ ...item, text: ... }] *)
Definition repair (item : RawHistoryItem) : HistoryItem :=
  {| id := raw_id item;
     text := repaired_text item;
     text_preview := raw_text_preview item;
     sentiment := raw_sentiment item;
     confidence := raw_confidence item;
     language := raw_language item;
     created_at := raw_created_at item;
     all_scores := raw_all_scores item |}.

(** Query parameters: an entry is appended only when its value is not
    [undefined], [null] or ['']. *)
Definition present (s : option string) : option string :=
  match s with
  | Some EmptyString => None
  | other => other
  end.

Definition params (filters : option HistoryFilters) : HistoryFilters :=
  match filters with
  | None => no_filters
  | Some f =>
      {| f_sentiment := f_sentiment f;
         f_language := present (f_language f);
         f_min_confidence := f_min_confidence f;
         f_max_confidence := f_max_confidence f;
         f_start_date := present (f_start_date f);
         f_end_date := present (f_end_date f);
         f_page := f_page f;
         f_limit := f_limit f;
         f_sort_by := present (f_sort_by f);
         f_sort_order := present (f_sort_order f) |}
  end.

(** The HTTP endpoint [GET /history]: [None] is a rejected request. *)
Definition HistoryEndpoint :=
  HistoryFilters -> option (HistoryResponse RawHistoryItem).

(** [async getHistory(filters?)] *)
Definition getHistory (http : HistoryEndpoint)
    (filters : option HistoryFilters) : option (HistoryResponse HistoryItem) :=
  match http (params filters) with
  | None => None
  | Some data =>
      Some {| items := map repair (items data);
              pagination := pagination data |}
  end.

(** The period string of [getStats(days)]. *)
Definition stats_period (days : Z) : string :=
  if (days <=? 7)%Z then "7d"
  else if (days <=? 30)%Z then "30d"
  else if (days <=? 90)%Z then "90d"
  else "1y".

(** The HTTP endpoint [GET /history/stats?period=...]. *)
Definition StatsEndpoint := string -> option StatsResponse.

(** [async getStats(days = 30)] *)
Definition getStats (http : StatsEndpoint) (days : option Z)
    : option StatsResponse :=
  http (stats_period (default 30 days)).

(** [async deleteAnalysis(id)]: the promise resolves with no value when the
    request succeeds and rejects otherwise. *)
Definition DeleteEndpoint := string -> bool.

Definition deleteAnalysis (http : DeleteEndpoint) (id : string)
    : option unit :=
  if http id then Some tt else None.

End ApiService.

(* ===================================================================== *)
(** * JavaScript helpers                                                  *)
(* ===================================================================== *)

Module Js.

(** An integer-valued JavaScript number (a count or a length) as a
    double; exact below 2^53. *)
Definition of_nat (n : nat) : float :=
  PrimFloat.of_uint63 (Uint63.of_Z (Z.of_nat n)).

(** [s.startsWith(p)] *)
Fixpoint startsWith (s p : string) : bool :=
  match p, s with
  | EmptyString, _ => true
  | String _ _, EmptyString => false
  | String a p', String b s' => Ascii.eqb a b && startsWith s' p'
  end.

(** [s.includes(term)]: [term] occurs in [s] at some position. *)
Fixpoint includes (s term : string) : bool :=
  startsWith s term ||
  match s with
  | EmptyString => false
  | String _ rest => includes rest term
  end.

(** [Math.ceil(a / b)] for integers [a] and [b > 0], in the range where
    doubles hold the integers exactly. *)
Definition ceil_div (a b : Z) : Z := (a + b - 1) / b.

End Js.

(* ===================================================================== *)
(** * LogsPage ([src/frontend/src/pages/LogsPage.tsx])                    *)
(* ===================================================================== *)

Module LogsPage.

(** The component's state ([useState] cells). [filterSentiment = 'all']
    is [None]. *)
Record State := {
  history : list HistoryItem;
  total : Z;
  loading : bool;
  error : option string;
  searchTerm : string;
  filterSentiment : option Sentiment;
  page : Z
}.

(** [const limit = 15] *)
Definition limit : Z := 15.

(** The state at mount. *)
Definition initial : State :=
  {| history := []; total := 0; loading := true; error := None;
     searchTerm := ""; filterSentiment := None; page := 1 |}.

(** The filters [loadHistory] sends. *)
Definition request (st : State) : HistoryFilters :=
  {| f_sentiment := filterSentiment st;
     f_language := None;
     f_min_confidence := None; f_max_confidence := None;
     f_start_date := None; f_end_date := None;
     f_page := Some (page st);
     f_limit := Some limit;
     f_sort_by := Some "created_at";
     f_sort_order := Some "desc" |}.

Section Search.

(** [String.prototype.toLowerCase] is the browser's: it lower-cases every
    cased letter of Unicode, by tables the page does not carry. *)
Variable toLowerCase : string -> string.

(** The client-side text filter:
    [item.text.toLowerCase().includes(searchTerm.toLowerCase()) ||
     item.id.includes(searchTerm)]. *)
Definition matches_search (term : string) (item : HistoryItem) : bool :=
  Js.includes (toLowerCase (Types.text item)) (toLowerCase term)
  || Js.includes (Types.id item) term.

Definition shown (term : string) (its : list HistoryItem) : list HistoryItem :=
  match term with
  | EmptyString => its
  | _ => List.filter (matches_search term) its
  end.

(** [loadHistory]: one run of the callback, to the state it leaves.
    A response without [pagination] throws at [response.pagination.total],
    after [setHistory] ran. *)
Definition loadHistory (http : ApiService.HistoryEndpoint) (st : State)
    : State :=
  match ApiService.getHistory http (Some (request st)) with
  | Some response =>
      let its := shown (searchTerm st) (items response) in
      match pagination response with
      | Some p =>
          {| history := its; total := Types.total p;
             loading := false; error := None;
             searchTerm := searchTerm st;
             filterSentiment := filterSentiment st; page := page st |}
      | None =>
          {| history := its; total := total st;
             loading := false;
             error := Some "Falha ao carregar histórico";
             searchTerm := searchTerm st;
             filterSentiment := filterSentiment st; page := page st |}
      end
  | None =>
      {| history := history st; total := total st;
         loading := false;
         error := Some "Falha ao carregar histórico";
         searchTerm := searchTerm st;
         filterSentiment := filterSentiment st; page := page st |}
  end.

End Search.

(** [handleDelete(id)]: [confirmed] is the answer to the confirmation
    dialog. *)
Definition handleDelete (http : ApiService.DeleteEndpoint)
    (confirmed : bool) (id : string) (st : State) : State :=
  if negb confirmed then st
  else
    match ApiService.deleteAnalysis http id with
    | Some _ =>
        {| history :=
             List.filter (fun item => negb (String.eqb (Types.id item) id))
                         (history st);
           total := total st - 1;
           loading := loading st; error := error st;
           searchTerm := searchTerm st;
           filterSentiment := filterSentiment st; page := page st |}
    | None =>
        {| history := history st; total := total st;
           loading := loading st;
           error := Some "Falha ao excluir análise";
           searchTerm := searchTerm st;
           filterSentiment := filterSentiment st; page := page st |}
    end.

(** [const totalPages = Math.ceil(total / limit)] *)
Definition totalPages (total : Z) : Z := Js.ceil_div total limit.

(** The two pagination buttons. *)
Inductive Click := Anterior | Proximo.

Definition setPage (p : Z) (st : State) : State :=
  {| history := history st; total := total st;
     loading := loading st; error := error st;
     searchTerm := searchTerm st;
     filterSentiment := filterSentiment st; page := p |}.

(** A click on a pagination button.  The controls are rendered only when
    [totalPages > 1]; [Anterior] is disabled on page 1 and [Proximo] on
    the last page, and a disabled button does nothing. *)
Definition click (c : Click) (st : State) : State :=
  let tp := totalPages (total st) in
  if negb (1 <? tp)%Z then st
  else
    match c with
    | Anterior =>
        if (page st =? 1)%Z then st
        else setPage (Z.max 1 (page st - 1)) st
    | Proximo =>
        if (page st =? tp)%Z then st
        else setPage (Z.min tp (page st + 1)) st
    end.

(** A sequence of clicks, first to last. *)
Definition navigate (clicks : list Click) (st : State) : State :=
  fold_left (fun s c => click c s) clicks st.

(** The page the user is on after [clicks], when the query reported
    [total] records. *)
Definition page_after (total : Z) (clicks : list Click) : Z :=
  page (navigate clicks
          {| history := []; total := total; loading := false;
             error := None; searchTerm := ""; filterSentiment := None;
             page := page initial |}).

End LogsPage.

(* ===================================================================== *)
(** * DashboardPage ([src/frontend/src/pages/SettingsPage.tsx], l. 375 on) *)
(* ===================================================================== *)

Module DashboardPage.

(** [sentimentCount[item.sentiment] = (sentimentCount[item.sentiment] || 0) + 1];
    the object is read at the keys ['positive'], ['negative'] and
    ['neutral'] only. *)
Definition count_item (m : gmap string nat) (item : HistoryItem)
    : gmap string nat :=
  <[sentiment item := (default 0 (m !! sentiment item) + 1)%nat]> m.

(** The [forEach] over the items, from the empty object. *)
Definition sentimentCount (its : list HistoryItem) : gmap string nat :=
  fold_left count_item its ∅.

(** [item.confidence >= 0.8] *)
Definition high_confidence (item : HistoryItem) : bool :=
  PrimFloat.leb 0.8%float (confidence item).

(** [historyRes.pagination?.total || items.length] *)
Definition totalAnalyses (historyRes : HistoryResponse HistoryItem) : Z :=
  match pagination historyRes with
  | Some p => if (Types.total p =? 0)%Z
              then Z.of_nat (length (items historyRes))
              else Types.total p
  | None => Z.of_nat (length (items historyRes))
  end.

(** [items.reduce((sum, item) => sum + item.confidence, 0) / items.length] *)
Definition avgConfidence (its : list HistoryItem) : float :=
  PrimFloat.div
    (fold_left (fun sum item => PrimFloat.add sum (confidence item)) its
               0%float)
    (Js.of_nat (length its)).

Definition highConfidenceCount (its : list HistoryItem) : nat :=
  length (List.filter high_confidence its).

(** [(highConfidenceCount / items.length) * 100] *)
Definition highConfidencePercentage (its : list HistoryItem) : float :=
  PrimFloat.mul
    (PrimFloat.div (Js.of_nat (highConfidenceCount its))
                   (Js.of_nat (length its)))
    100%float.

(** The object passed to [setStats] on the fallback path. *)
Definition fallback_stats (historyRes : HistoryResponse HistoryItem)
    : StatsResponse :=
  let its := items historyRes in
  let counts := sentimentCount its in
  {| total_analyses := totalAnalyses historyRes;
     avg_confidence := avgConfidence its;
     high_confidence_percentage := highConfidencePercentage its;
     sentiment_distribution :=
       {| d_positive := default 0%nat (counts !! "positive");
          d_negative := default 0%nat (counts !! "negative");
          d_neutral := default 0%nat (counts !! "neutral") |};
     top_languages := [];
     period := "7d";
     sentiment_trend := [] |}.

(** The [stats] cell after [loadData]: the answer of [/history/stats]
    when there is one, else the fallback computed from a non-empty
    history page, else what was there before. *)
Definition loadData_stats (prev : option StatsResponse)
    (historyRes : option (HistoryResponse HistoryItem))
    (statsRes : option StatsResponse) : option StatsResponse :=
  match statsRes, historyRes with
  | Some s, _ => Some s
  | None, Some h =>
      if (0 <? length (items h))%nat then Some (fallback_stats h) else prev
  | None, None => prev
  end.

(** The sum of the per-label counts of a distribution. *)
Definition distribution_sum (d : SentimentDistribution) : nat :=
  (d_positive d + d_negative d + d_neutral d)%nat.

End DashboardPage.

(* ===================================================================== *)
(** * RecordStore (specification, section 4.4)                            *)
(* ===================================================================== *)

Module RecordStore.

(** Modelled from the spec: the backend's RecordStore is not among the
    sources.  An AnalysisRecord of section 3; [created_at] is the write
    time in seconds. *)
Record AnalysisRecord := {
  rec_id : string;
  rec_text : string;
  rec_sentiment : Sentiment;
  rec_confidence : float;
  rec_language : string;
  rec_all_scores : list SentimentScore;
  rec_created_at : Z;
  rec_cached : bool
}.

(** Modelled from the spec: the store is the sequence of records in
    insertion order, with the counter that generates ids. *)
Record Store := {
  records : list AnalysisRecord;
  next_id : nat
}.

(** Modelled from the spec: the store before any [append]. *)
Definition empty : Store := {| records := []; next_id := 0 |}.

(** Modelled from the spec: [append(record) -> id]; the id is generated at
    write time and the record goes last. *)
Definition append (r : AnalysisRecord) (s : Store) : Store * string :=
  let new_id := "rec-" +:+ pretty (next_id s) in
  ({| records := records s ++
                 [{| rec_id := new_id; rec_text := rec_text r;
                     rec_sentiment := rec_sentiment r;
                     rec_confidence := rec_confidence r;
                     rec_language := rec_language r;
                     rec_all_scores := rec_all_scores r;
                     rec_created_at := rec_created_at r;
                     rec_cached := rec_cached r |}];
      next_id := S (next_id s) |}, new_id).

(** Modelled from the spec: the record is the one with this id. *)
Definition has_id (id : string) (r : AnalysisRecord) : bool :=
  String.eqb (rec_id r) id.

(** Modelled from the spec: [get(id) -> record | not-found]. *)
Definition get (id : string) (s : Store) : option AnalysisRecord :=
  List.find (has_id id) (records s).

(** Modelled from the spec: [delete(id) -> bool]; a missing id gives the
    not-found signal [false] and leaves the store as it is. *)
Definition delete (id : string) (s : Store) : Store * bool :=
  if existsb (has_id id) (records s)
  then ({| records := List.filter (fun r => negb (has_id id r)) (records s);
           next_id := next_id s |}, true)
  else (s, false).

(** Modelled from the spec: the optional filters of [query]. *)
Record Filters := {
  by_sentiment : option Sentiment;
  by_language : option string;
  min_confidence : option float;
  max_confidence : option float;
  created_from : option Z;
  created_to : option Z;
  text_contains : option string
}.

(** Modelled from the spec: no filter given. *)
Definition no_filter : Filters :=
  {| by_sentiment := None; by_language := None;
     min_confidence := None; max_confidence := None;
     created_from := None; created_to := None;
     text_contains := None |}.

(** Modelled from the spec: every filter is optional; an absent filter
    accepts every record. *)
Definition accepts {A} (test : A -> bool) (o : option A) : bool :=
  match o with
  | None => true
  | Some a => test a
  end.

(** Modelled from the spec: the creation-date range, both ends
    included. *)
Definition in_range (from to : option Z) (r : AnalysisRecord) : bool :=
  accepts (fun t => (t <=? rec_created_at r)%Z) from
  && accepts (fun t => (rec_created_at r <=? t)%Z) to.

(** Modelled from the spec: the filters are combined with AND. *)
Definition matches (f : Filters) (r : AnalysisRecord) : bool :=
  accepts (fun l => bool_decide (rec_sentiment r = l)) (by_sentiment f)
  && accepts (fun l => String.eqb (rec_language r) l) (by_language f)
  && accepts (fun c => PrimFloat.leb c (rec_confidence r)) (min_confidence f)
  && accepts (fun c => PrimFloat.leb (rec_confidence r) c) (max_confidence f)
  && in_range (created_from f) (created_to f) r
  && accepts (fun t => Js.includes (rec_text r) t) (text_contains f).

(** Modelled from the spec: the indexed columns one can sort by. *)
Inductive Column := ByCreatedAt | BySentiment | ByLanguage.

(** Modelled from the spec: ascending or descending. *)
Inductive Direction := Asc | Desc.

(** Modelled from the spec: the comparison in descending order. *)
Definition flip (c : comparison) : comparison :=
  match c with
  | Lt => Gt
  | Gt => Lt
  | Eq => Eq
  end.

(** Modelled from the spec: two records compared on a column. *)
Definition column_compare (col : Column) (a b : AnalysisRecord) : comparison :=
  match col with
  | ByCreatedAt => Z.compare (rec_created_at a) (rec_created_at b)
  | BySentiment =>
      String.compare (label (rec_sentiment a)) (label (rec_sentiment b))
  | ByLanguage => String.compare (rec_language a) (rec_language b)
  end.

(** Modelled from the spec: [a] goes before [b], by the column in the
    direction asked, ties broken by id. *)
Definition goes_before (col : Column) (dir : Direction)
    (a b : AnalysisRecord) : bool :=
  let c := column_compare col a b in
  match (match dir with Asc => c | Desc => flip c end) with
  | Lt => true
  | Gt => false
  | Eq => match String.compare (rec_id a) (rec_id b) with
          | Gt => false
          | _ => true
          end
  end.

(** Modelled from the spec: a record put at its place in a sorted list. *)
Fixpoint insert_by (before : AnalysisRecord -> AnalysisRecord -> bool)
    (r : AnalysisRecord) (l : list AnalysisRecord) : list AnalysisRecord :=
  match l with
  | [] => [r]
  | x :: rest => if before r x then r :: x :: rest
                 else x :: insert_by before r rest
  end.

(** Modelled from the spec: the records sorted by a column; records that
    compare equal keep their order. *)
Definition sort_by (col : Column) (dir : Direction)
    (l : list AnalysisRecord) : list AnalysisRecord :=
  fold_right (insert_by (goes_before col dir)) [] l.

(** Modelled from the spec: a 1-indexed page number and a page size. *)
Record Page := {
  number : Z;
  size : Z
}.

(** Modelled from the spec: the slice of a list that a page holds. *)
Definition slice {A} (p : Page) (l : list A) : list A :=
  take (Z.to_nat (size p)) (drop (Z.to_nat ((number p - 1) * size p)) l).

(** Modelled from the spec: [query(filters, sort, page) -> (items,
    totalCount)]: the page slice of the sorted matching records, and the
    number of matching records whatever the page. *)
Definition query (f : Filters) (col : Column) (dir : Direction) (p : Page)
    (s : Store) : list AnalysisRecord * nat :=
  let matching := List.filter (matches f) (records s) in
  (slice p (sort_by col dir matching), length matching).

(** Modelled from the spec: the [totalCount] of a query, which does not
    depend on the sort order or the page. *)
Definition totalCount (f : Filters) (s : Store) : nat :=
  snd (query f ByCreatedAt Desc {| number := 1; size := 1 |} s).

(** Modelled from the spec: the filter that is a pure creation-date
    range. *)
Definition dateRange (from to : Z) : Filters :=
  {| by_sentiment := None; by_language := None;
     min_confidence := None; max_confidence := None;
     created_from := Some from; created_to := Some to;
     text_contains := None |}.

End RecordStore.

(* ===================================================================== *)
(** * The history endpoint in front of the RecordStore                    *)
(* ===================================================================== *)

Module Facade.
Import RecordStore.

Section Endpoint.

(** What the REST surface does to a text, a timestamp and a date
    parameter, and the page size it takes when none is asked, are not in
    the sources. *)
Variable preview : string -> string.
Variable iso : Z -> string.
Variable parse_date : string -> option Z.
Variable default_limit : Z.

(** Modelled from the spec: the flat row of an AnalysisRecord as the
    history payload; the text travels as [text_preview]. *)
Definition to_raw (r : AnalysisRecord) : RawHistoryItem :=
  {| raw_id := rec_id r;
     raw_text := None;
     raw_text_preview := Some (preview (rec_text r));
     raw_sentiment := label (rec_sentiment r);
     raw_confidence := rec_confidence r;
     raw_language := rec_language r;
     raw_created_at := iso (rec_created_at r);
     raw_all_scores := Some (rec_all_scores r) |}.

(** Modelled from the spec: the filters of a history request.  The
    request has no free-text parameter ([HistoryFilters] declares
    none), so [text_contains] is never set. *)
Definition to_filters (f : HistoryFilters) : Filters :=
  {| by_sentiment := f_sentiment f;
     by_language := f_language f;
     min_confidence := f_min_confidence f;
     max_confidence := f_max_confidence f;
     created_from := f_start_date f ≫= parse_date;
     created_to := f_end_date f ≫= parse_date;
     text_contains := None |}.

(** Modelled from the spec: the sort column named by [sort_by]. *)
Definition to_column (f : HistoryFilters) : Column :=
  match f_sort_by f with
  | Some "sentiment" => BySentiment
  | Some "language" => ByLanguage
  | _ => ByCreatedAt
  end.

(** Modelled from the spec: the direction named by [sort_order]. *)
Definition to_direction (f : HistoryFilters) : Direction :=
  match f_sort_order f with
  | Some "asc" => Asc
  | _ => Desc
  end.

(** Modelled from the spec: the page asked for, the first one by
    default. *)
Definition to_page (f : HistoryFilters) : Page :=
  {| number := default 1 (f_page f);
     size := default default_limit (f_limit f) |}.

(** Modelled from the spec: [GET /history] answers with the page slice
    and the total count of [query]. *)
Definition history (s : Store) : ApiService.HistoryEndpoint :=
  fun f =>
    let p := to_page f in
    let '(found, n) := query (to_filters f) (to_column f) (to_direction f) p s in
    let pages := Js.ceil_div (Z.of_nat n) (size p) in
    Some {| items := map to_raw found;
            pagination :=
              Some {| Types.page := number p;
                      Types.limit := size p;
                      Types.total := Z.of_nat n;
                      Types.pages := pages;
                      Types.has_next := (number p <? pages)%Z;
                      Types.has_prev := (1 <? number p)%Z |} |}.

End Endpoint.

End Facade.

(* ===================================================================== *)
(** * AnalyticsAggregator (specification, section 4.5)                    *)
(* ===================================================================== *)

Module AnalyticsAggregator.
Import RecordStore.

(** Modelled from the spec: a time range, in seconds, both ends
    included; the aggregator itself is not among the sources. *)
Record TimeRange := {
  from : Z;
  to : Z
}.

(** Modelled from the spec: the record was created in the range. *)
Definition within (range : TimeRange) (r : AnalysisRecord) : bool :=
  in_range (Some (from range)) (Some (to range)) r.

(** Modelled from the spec: the number of records with a label. *)
Definition count_label (l : Sentiment) (rs : list AnalysisRecord) : nat :=
  length (List.filter (fun r => bool_decide (rec_sentiment r = l)) rs).

(** Modelled from the spec: [distribution(timeRange) -> {label -> count}],
    computed from the store's current contents; every label of the closed
    set has an entry. *)
Definition distribution (s : Store) (range : TimeRange)
    : SentimentDistribution :=
  let rs := List.filter (within range) (records s) in
  {| d_positive := count_label positive rs;
     d_negative := count_label negative rs;
     d_neutral := count_label neutral rs |}.

(** Modelled from the spec: days are the buckets of the time series. *)
Definition seconds_per_day : Z := 86400.

(** Modelled from the spec: the day a timestamp falls in. *)
Definition day_of (t : Z) : Z := t / seconds_per_day.

(** Modelled from the spec: an entry [{date, count, avgConfidence}] of
    [dailyVolume]; [date] is the day number. *)
Record DailyEntry := {
  date : Z;
  count : nat;
  avgConfidence : float
}.

(** Modelled from the spec: the record was created on day [d]. *)
Definition on_day (d : Z) (r : AnalysisRecord) : bool :=
  (day_of (rec_created_at r) =? d)%Z.

(** Modelled from the spec: the mean confidence of a day's records; the
    spec leaves the value for a day without records open, it is 0 here. *)
Definition mean_confidence (rs : list AnalysisRecord) : float :=
  match rs with
  | [] => 0%float
  | _ => PrimFloat.div
           (fold_left (fun sum r => PrimFloat.add sum (rec_confidence r)) rs
                      0%float)
           (Js.of_nat (length rs))
  end.

(** Modelled from the spec: the entry of day [d]. *)
Definition daily_entry (rs : list AnalysisRecord) (d : Z) : DailyEntry :=
  let today := List.filter (on_day d) rs in
  {| date := d; count := length today;
     avgConfidence := mean_confidence today |}.

(** Modelled from the spec: [dailyVolume(timeRange)]: one entry per day
    from the day of [from] to the day of [to], in date order, built from
    the records in range; a day without records keeps its entry. *)
Definition dailyVolume (s : Store) (range : TimeRange) : list DailyEntry :=
  let rs := List.filter (within range) (records s) in
  let first := day_of (from range) in
  let last := day_of (to range) in
  map (daily_entry rs) (seqZ first (last - first + 1)).

(** Modelled from the spec: a range of [n] whole days starting with day
    [d0]. *)
Definition whole_days (d0 : Z) (n : nat) : TimeRange :=
  {| from := d0 * seconds_per_day;
     to := (d0 + Z.of_nat n) * seconds_per_day - 1 |}.

End AnalyticsAggregator.

(* ===================================================================== *)
(** * Fingerprinter and ResultCache (specification, sections 4.1, 4.2)    *)
(* ===================================================================== *)

Module ResultCache.




Section Fingerprint.

(** The hash over the normalised tuple. *)
Variable hash : string * string * string -> string.


End Fingerprint.

(** Modelled from the spec: a CacheEntry of section 3, stored under its
    key; [value] is the serialised AnalysisResult. *)
Record CacheEntry := {
  value : string;
  expires_at : Z
}.

(** Modelled from the spec: the two tiers of the ResultCache, which is
    not among the sources.  The primary tier is a key/value store with
    TTL; the fallback tier is an in-process store, most recently used
    first, that holds at most [max_entries] entries; [using_fallback] is
    the health flag. *)
Record Cache := {
  primary : gmap string CacheEntry;
  fallback : list (string * CacheEntry);
  max_entries : nat;
  using_fallback : bool
}.

(** Modelled from the spec: the cache with nothing stored. *)
Definition empty (max : nat) : Cache :=
  {| primary := ∅; fallback := []; max_entries := max;
     using_fallback := false |}.

(** Modelled from the spec: the entry has not expired at [now]. *)
Definition fresh_at (now : Z) (e : CacheEntry) : bool :=
  (now <? expires_at e)%Z.

(** Modelled from the spec: the fallback entry stored under [key]. *)
Definition keyed (key : string) (kv : string * CacheEntry) : bool :=
  String.eqb (fst kv) key.

(** Modelled from the spec: the fallback entries but the one under
    [key]. *)
Definition without (key : string) (l : list (string * CacheEntry))
    : list (string * CacheEntry) :=
  List.filter (fun kv => negb (keyed key kv)) l.

(** Modelled from the spec: [get(key) -> (value, hit)].  [primary_up]
    tells whether the primary store answers this operation; when it does
    not, the fallback tier answers and the cache is flagged as degraded.
    An expired entry is a miss; a hit in the fallback tier makes the
    entry the most recently used. *)
Definition get (key : string) (now : Z) (primary_up : bool) (c : Cache)
    : Cache * option string :=
  if primary_up then
    match primary c !! key with
    | Some e =>
        if fresh_at now e
        then ({| primary := primary c; fallback := fallback c;
                 max_entries := max_entries c; using_fallback := false |},
              Some (value e))
        else ({| primary := base.delete key (primary c);
                 fallback := fallback c;
                 max_entries := max_entries c; using_fallback := false |},
              None)
    | None =>
        ({| primary := primary c; fallback := fallback c;
            max_entries := max_entries c; using_fallback := false |}, None)
    end
  else
    match List.find (keyed key) (fallback c) with
    | Some (k, e) =>
        if fresh_at now e
        then ({| primary := primary c;
                 fallback := (k, e) :: without key (fallback c);
                 max_entries := max_entries c; using_fallback := true |},
              Some (value e))
        else ({| primary := primary c;
                 fallback := without key (fallback c);
                 max_entries := max_entries c; using_fallback := true |},
              None)
    | None =>
        ({| primary := primary c; fallback := fallback c;
            max_entries := max_entries c; using_fallback := true |}, None)
    end.


(** Modelled from the spec: [invalidate(key)] removes the entry from the
    tier that is live. *)
Definition invalidate (key : string) (primary_up : bool) (c : Cache)
    : Cache :=
  if primary_up then
    {| primary := base.delete key (primary c); fallback := fallback c;
       max_entries := max_entries c; using_fallback := false |}
  else
    {| primary := primary c; fallback := without key (fallback c);
       max_entries := max_entries c; using_fallback := true |}.

(** Modelled from the spec: [healthStatus() -> {primary, usingFallback}];
    [true] for [primary] reads "up". *)
Definition healthStatus (c : Cache) : bool * bool :=
  (negb (using_fallback c), using_fallback c).



End ResultCache.

(* ===================================================================== *)
(** * RateLimiter (specification, section 4.3)                            *)
(* ===================================================================== *)

Module RateLimiter.

(** Modelled from the spec: the two time units a quota is set for. *)
Inductive Unit := Minute | Hour.


(** Modelled from the spec: a RateWindow of section 3, the counter bucket
    of one (client, endpoint) for one unit. *)
Record RateWindow := {
  window_start : Z;
  count : nat;
  limit : nat
}.






(** Modelled from the spec: the counter has not gone over the limit. *)
Definition within (w : RateWindow) : bool := (count w <=? limit w)%nat.






End RateLimiter.

(* ===================================================================== *)
(** * Notions used in the statements                                      *)
(* ===================================================================== *)

(** The number of items of a page that carry a label. *)
Definition occurrences (label : string) (its : list HistoryItem) : nat :=
  length (List.filter (fun it => String.eqb (sentiment it) label) its).

(** The item carries one of the three labels of [Sentiment]. *)
Definition labelled (it : HistoryItem) : bool :=
  String.eqb (sentiment it) "positive"
  || String.eqb (sentiment it) "negative"
  || String.eqb (sentiment it) "neutral".

(** The filters that reach the store from the logs page: the sentiment
    filter alone. *)
Definition sentiment_only (o : option Sentiment) : RecordStore.Filters :=
  {| RecordStore.by_sentiment := o;
     RecordStore.by_language := None;
     RecordStore.min_confidence := None;
     RecordStore.max_confidence := None;
     RecordStore.created_from := None;
     RecordStore.created_to := None;
     RecordStore.text_contains := None |}.

(** The same filters with the free-text filter added. *)
Definition sentiment_and_text (o : option Sentiment) (term : string)
    : RecordStore.Filters :=
  {| RecordStore.by_sentiment := o;
     RecordStore.by_language := None;
     RecordStore.min_confidence := None;
     RecordStore.max_confidence := None;
     RecordStore.created_from := None;
     RecordStore.created_to := None;
     RecordStore.text_contains := Some term |}.

(** [t] occurs in [s]: [s] is some text, then [t], then some text. *)
Definition occurs_in (t s : string) : Prop :=
  exists before after, s = before +:+ t +:+ after.

(** What the logs page's search asks of an item: the lower-cased text holds
    the lower-cased term, or the id holds the term as typed. *)
Definition searched (toLowerCase : string -> string) (term : string)
    (item : HistoryItem) : Prop :=
  occurs_in (toLowerCase term) (toLowerCase (text item))
  \/ occurs_in term (id item).






Definition other (u : RateLimiter.Unit) : RateLimiter.Unit :=
  match u with
  | RateLimiter.Minute => RateLimiter.Hour
  | RateLimiter.Hour => RateLimiter.Minute
  end.


(* ===================================================================== *)
(** * Sample data                                                         *)
(* ===================================================================== *)

Definition sample_raw : RawHistoryItem :=
  {| raw_id := "rec-7"; raw_text := None;
     raw_text_preview := Some "Great service";
     raw_sentiment := "positive"; raw_confidence := 0.93%float;
     raw_language := "en"; raw_created_at := "2025-01-01T10:00:00Z";
     raw_all_scores := None |}.

Definition page_item (c : float) (label : string) : HistoryItem :=
  {| id := "rec"; text := "text"; text_preview := None;
     sentiment := label; confidence := c; language := "en";
     created_at := "2025-01-01T10:00:00Z"; all_scores := None |}.

(** The three records of the scenario, as a history page. *)
Definition scenario_page : HistoryResponse HistoryItem :=
  {| items := [page_item 0.93%float "positive";
               page_item 0.81%float "negative";
               page_item 0.6%float "positive"];
     pagination := None |}.

Definition store_of (rs : list RecordStore.AnalysisRecord) : RecordStore.Store :=
  fold_left (fun s r => fst (RecordStore.append r s)) rs RecordStore.empty.

(** Twenty-one records, written one minute apart. *)
Definition numbered_record (i : nat) : RecordStore.AnalysisRecord :=
  {| RecordStore.rec_id := "";
     RecordStore.rec_text := "text " +:+ pretty i;
     RecordStore.rec_sentiment := if Nat.even i then positive else negative;
     RecordStore.rec_confidence := 0.9%float;
     RecordStore.rec_language := "en";
     RecordStore.rec_all_scores := [];
     RecordStore.rec_created_at := 60 * Z.of_nat i;
     RecordStore.rec_cached := false |}.

Definition store21 : RecordStore.Store :=
  store_of (map numbered_record (seq 0 21)).

(** Sixteen records; only the oldest one mentions "good". *)
Definition search_record (i : nat) : RecordStore.AnalysisRecord :=
  {| RecordStore.rec_id := "";
     RecordStore.rec_text := if Nat.eqb i 0 then "good day" else "bad day";
     RecordStore.rec_sentiment := positive;
     RecordStore.rec_confidence := 0.9%float;
     RecordStore.rec_language := "en";
     RecordStore.rec_all_scores := [];
     RecordStore.rec_created_at := 60 * Z.of_nat i;
     RecordStore.rec_cached := false |}.

Definition store16 : RecordStore.Store :=
  store_of (map search_record (seq 0 16)).

(** The spec's scenario with an empty middle day: two records on day 0,
    none on day 1, one on day 2. *)
Definition three_day_store : RecordStore.Store :=
  store_of
    [ {| RecordStore.rec_id := ""; RecordStore.rec_text := "great";
         RecordStore.rec_sentiment := positive;
         RecordStore.rec_confidence := 0.93%float;
         RecordStore.rec_language := "en"; RecordStore.rec_all_scores := [];
         RecordStore.rec_created_at := 10; RecordStore.rec_cached := false |};
      {| RecordStore.rec_id := ""; RecordStore.rec_text := "ruim";
         RecordStore.rec_sentiment := negative;
         RecordStore.rec_confidence := 0.81%float;
         RecordStore.rec_language := "pt"; RecordStore.rec_all_scores := [];
         RecordStore.rec_created_at := 20; RecordStore.rec_cached := false |};
      {| RecordStore.rec_id := ""; RecordStore.rec_text := "fine";
         RecordStore.rec_sentiment := positive;
         RecordStore.rec_confidence := 0.6%float;
         RecordStore.rec_language := "en"; RecordStore.rec_all_scores := [];
         RecordStore.rec_created_at := 2 * 86400 + 5;
         RecordStore.rec_cached := false |} ].

(** The endpoint used in the examples: texts are sent whole, timestamps as
    seconds, date parameters are not used. *)
Definition example_endpoint (s : RecordStore.Store) : ApiService.HistoryEndpoint :=
  Facade.history (fun t => t) (fun t => pretty t) (fun _ => None) 20 s.

(** [api.getHistory({ limit: 20, sort_by: 'created_at', sort_order: 'desc' })] *)
Definition dashboard_request : HistoryFilters :=
  {| f_sentiment := None; f_language := None;
     f_min_confidence := None; f_max_confidence := None;
     f_start_date := None; f_end_date := None;
     f_page := None; f_limit := Some 20;
     f_sort_by := Some "created_at"; f_sort_order := Some "desc" |}.

(** [toLowerCase] on texts of ASCII characters, the only ones the sample
    records hold: there it changes the letters A to Z and nothing else. *)
Definition ascii_lower (c : ascii) : ascii :=
  let n := nat_of_ascii c in
  if (Nat.leb 65 n && Nat.leb n 90)%bool then ascii_of_nat (n + 32) else c.

Fixpoint ascii_toLowerCase (s : string) : string :=
  match s with
  | EmptyString => EmptyString
  | String c rest => String (ascii_lower c) (ascii_toLowerCase rest)
  end.

(** The logs page after the user typed "good". *)
Definition searching_good : LogsPage.State :=
  {| LogsPage.history := []; LogsPage.total := 0; LogsPage.loading := true;
     LogsPage.error := None; LogsPage.searchTerm := "good";
     LogsPage.filterSentiment := None; LogsPage.page := 1 |}.




(* ===================================================================== *)
(** * ApiService: the session ([src/unnamed/part_001], l. 90-141)         *)
(* ===================================================================== *)

Module ApiAuth.

(** [interface User] *)
Record User := {
  user_id : string;
  username : string;
  email : string;
  full_name : option string;
  is_active : bool;
  is_admin : bool;
  user_created_at : string;
  last_login : option string
}.

(** [interface LoginRequest] *)
Record LoginRequest := {
  login_username : string;
  login_password : string
}.

(** [interface TokenResponse] *)
Record TokenResponse := {
  access_token : string;
  token_type : string;
  expires_in : Z;
  user : User
}.

(** The [ApiService] object's [token] field, with the browser's
    [localStorage] it reads and writes. *)
Record Client := {
  token : option string;
  localStorage : gmap string string
}.

Definition token_key : string := "moodapi_token".

(** The end of the constructor: the token saved in [localStorage], when
    there is a non-empty one, becomes the token. *)
Definition construct (storage : gmap string string) : Client :=
  {| token := if ApiService.truthy (storage !! token_key)
              then storage !! token_key else None;
     localStorage := storage |}.

(** The HTTP endpoint [POST /auth/login]: [None] is a rejected request. *)
Definition LoginEndpoint := LoginRequest -> option TokenResponse.

(** [async login(credentials)]: the new state and the promise's outcome. *)
Definition login (http : LoginEndpoint) (credentials : LoginRequest)
    (c : Client) : Client * option TokenResponse :=
  match http credentials with
  | Some data =>
      ({| token := Some (access_token data);
          localStorage := <[token_key := access_token data]> (localStorage c) |},
       Some data)
  | None => (c, None)
  end.

(** [logout()] *)
Definition logout (c : Client) : Client :=
  {| token := None;
     localStorage := base.delete token_key (localStorage c) |}.

(** [isAuthenticated()]: [!!this.token] *)
Definition isAuthenticated (c : Client) : bool :=
  ApiService.truthy (token c).

(** The request interceptor: the [Authorization] header it sets, if any. *)
Definition authorization (c : Client) : option string :=
  match token c with
  | Some t => if ApiService.truthy (Some t) then Some ("Bearer " +:+ t) else None
  | None => None
  end.

End ApiAuth.

(* ===================================================================== *)
(** * LogsPage: the CSV export ([LogsPage.tsx], l. 77-96)                 *)
(* ===================================================================== *)

Module LogsExport.

(** The double quote character. *)
Definition dquote : ascii := ascii_of_nat 34.

(** The line feed character. *)
Definition newline : ascii := ascii_of_nat 10.

(** The [replace] of the text cell: every double quote is doubled. *)
Fixpoint escape_quotes (s : string) : string :=
  match s with
  | EmptyString => EmptyString
  | String c rest =>
      if Ascii.eqb c dquote
      then String dquote (String dquote (escape_quotes rest))
      else String c (escape_quotes rest)
  end.

(** The text cell: the escaped text between double quotes. *)
Definition text_cell (text : string) : string :=
  String dquote (escape_quotes text +:+ String dquote EmptyString).

Section Csv.

(** [String(item.confidence)], the way [join] prints a number. *)
Variable show_number : float -> string.

(** The cells of an item's row. *)
Definition row_cells (item : HistoryItem) : list string :=
  [ Types.id item; text_cell (Types.text item); sentiment item;
    show_number (confidence item); language item; created_at item ].

(** [const headers = ['ID', 'Texto', 'Sentimento', 'Confiança', 'Idioma', 'Data']] *)
Definition headers : list string :=
  [ "ID"; "Texto"; "Sentimento"; "Confiança"; "Idioma"; "Data" ].

(** The lines of the file: the header line, then one per item. *)
Definition csv_lines (history : list HistoryItem) : list string :=
  String.concat "," headers
  :: map (fun item => String.concat "," (row_cells item)) history.

(** The CSV text handed to the [Blob]. *)
Definition csv (history : list HistoryItem) : string :=
  String.concat (String newline EmptyString) (csv_lines history).

End Csv.

(** The reading of a quoted CSV cell after its opening quote: a doubled
    quote stands for a quote, a single one closes the cell.  The result is
    the cell's content and what follows the closing quote. *)
Fixpoint read_quoted_body (s : string) : option (string * string) :=
  match s with
  | EmptyString => None
  | String c rest =>
      if Ascii.eqb c dquote then
        match rest with
        | String c' rest' =>
            if Ascii.eqb c' dquote
            then match read_quoted_body rest' with
                 | Some (content, after) => Some (String dquote content, after)
                 | None => None
                 end
            else Some (EmptyString, rest)
        | EmptyString => Some (EmptyString, EmptyString)
        end
      else match read_quoted_body rest with
           | Some (content, after) => Some (String c content, after)
           | None => None
           end
  end.

(** The reading of a quoted CSV cell. *)
Definition read_quoted (s : string) : option (string * string) :=
  match s with
  | String c rest => if Ascii.eqb c dquote then read_quoted_body rest else None
  | EmptyString => None
  end.

End LogsExport.

(* ===================================================================== *)
(** * DashboardPage: the charts ([SettingsPage.tsx], l. 423-451)          *)
(* ===================================================================== *)

Module DashboardCharts.

(** The sentiment chart is built from [item.sentiment], whose type is
    [Sentiment].  For the three labels of that type the plain object
    [sentimentCount] is a map from label to count, and [Object.entries]
    lists its entries in the order in which the labels were first seen.
    A string that names a member of [Object.prototype], or an array index,
    would not be counted this way; it is no [Sentiment], and the chart is
    modelled on the labels of the type. *)

(** [sentimentCount[label] = (sentimentCount[label] || 0) + 1]: a label
    seen before is counted in place, a new one goes last. *)
Fixpoint bump (l : Sentiment) (entries : list (Sentiment * nat))
    : list (Sentiment * nat) :=
  match entries with
  | [] => [(l, 1%nat)]
  | (k, n) :: rest =>
      if bool_decide (k = l) then (k, S n) :: rest
      else (k, n) :: bump l rest
  end.

(** [Object.entries(sentimentCount)] after the [forEach] over the items,
    [labels] being their [sentiment] fields. *)
Definition sentimentEntries (labels : list Sentiment)
    : list (Sentiment * nat) :=
  fold_left (fun entries l => bump l entries) labels [].

(** [colors[name] || '#f59e0b'] for a label: the table holds a colour for
    each of the three. *)
Definition fill_of (name : Sentiment) : string :=
  match name with
  | positive => "#10b981"
  | negative => "#ef4444"
  | neutral => "#6b7280"
  end.

(** [name.toUpperCase()] for a label. *)
Definition toUpperCase (name : Sentiment) : string :=
  match name with
  | positive => "POSITIVE"
  | negative => "NEGATIVE"
  | neutral => "NEUTRAL"
  end.

(** A bar of the sentiment chart. *)
Record Bar := {
  bar_name : string;
  bar_value : nat;
  bar_fill : string
}.

(** The argument of [setSentimentData]. *)
Definition sentimentData (labels : list Sentiment) : list Bar :=
  map (fun entry => {| bar_name := toUpperCase (fst entry);
                       bar_value := snd entry;
                       bar_fill := fill_of (fst entry) |})
      (sentimentEntries labels).

(** A point of the confidence timeline. *)
Record TimePoint := {
  point_time : string;
  point_requests : nat;
  point_confidence : float
}.

Section Timeline.

(** [new Date(created_at).toLocaleTimeString([], {...})] and [Math.round]
    are the browser's. *)
Variable time_of_day : string -> string.
Variable Math_round : float -> float.

(** [historyRes.items.slice(0, 12).reverse().map(...)] *)
Definition timePoints (its : list HistoryItem) : list TimePoint :=
  map (fun item =>
         {| point_time := time_of_day (created_at item);
            point_requests := 1;
            point_confidence :=
              Math_round (PrimFloat.mul (confidence item) 100%float) |})
      (rev (take 12 its)).

End Timeline.

End DashboardCharts.

(* ===================================================================== *)
(** * SettingsPage: the examples ([SettingsPage.tsx], l. 10-103)          *)
(* ===================================================================== *)

Module SettingsPage.

Inductive Lang := pt | en.

#[global] Instance Lang_eq_dec : EqDecision Lang.
Proof. solve_decision. Defined.

(** The value of the [examples] cell: [{ pt: string[], en: string[] }]. *)
Record Examples := {
  ex_pt : list string;
  ex_en : list string
}.

(** [examples[lang]] *)
Definition of_lang (lang : Lang) (ex : Examples) : list string :=
  match lang with
  | pt => ex_pt ex
  | en => ex_en ex
  end.

(** [{ ...prev, [lang]: l }] *)
Definition with_lang (lang : Lang) (l : list string) (prev : Examples)
    : Examples :=
  match lang with
  | pt => {| ex_pt := l; ex_en := ex_en prev |}
  | en => {| ex_pt := ex_pt prev; ex_en := l |}
  end.

(** [const DEFAULT_EXAMPLES] *)
Definition DEFAULT_EXAMPLES : Examples :=
  {| ex_pt := [ "Estou muito feliz com o atendimento!";
                "Péssima experiência, não recomendo.";
                "O produto chegou dentro do prazo previsto.";
                "Adorei! Superou minhas expectativas.";
                "Infelizmente não funcionou como esperado." ];
     ex_en := [ "I am very happy with this service!";
                "Terrible experience, would not recommend.";
                "The product arrived on time as expected.";
                "Amazing! Exceeded my expectations.";
                "Unfortunately it did not work as expected." ] |}.

(** The cells of the component that the example handlers touch, with the
    browser's [localStorage]. *)
Record State := {
  examples : Examples;
  examplesModified : bool;
  localStorage : gmap string string
}.

Definition examples_key : string := "moodapi_examples".

(** The state at mount, before [loadExamples]. *)
Definition mount (storage : gmap string string) : State :=
  {| examples := DEFAULT_EXAMPLES; examplesModified := false;
     localStorage := storage |}.

(** [l.filter((_, i) => keep(i))], from index [i] on. *)
Fixpoint filter_from {A} (keep : nat -> bool) (i : nat) (l : list A) : list A :=
  match l with
  | [] => []
  | x :: rest =>
      if keep i then x :: filter_from keep (S i) rest
      else filter_from keep (S i) rest
  end.

(** [updateExample(lang, index, value)] *)
Definition updateExample (lang : Lang) (index : nat) (value : string)
    (st : State) : State :=
  {| examples :=
       with_lang lang
         (imap (fun i ex => if Nat.eqb i index then value else ex)
               (of_lang lang (examples st)))
         (examples st);
     examplesModified := true;
     localStorage := localStorage st |}.

(** [addExample(lang)] *)
Definition addExample (lang : Lang) (st : State) : State :=
  {| examples :=
       with_lang lang (of_lang lang (examples st) ++ [EmptyString])%list
                 (examples st);
     examplesModified := true;
     localStorage := localStorage st |}.

(** [removeExample(lang, index)] *)
Definition removeExample (lang : Lang) (index : nat) (st : State) : State :=
  if (length (of_lang lang (examples st)) <=? 1)%nat then st
  else
    {| examples :=
         with_lang lang
           (filter_from (fun i => negb (Nat.eqb i index)) 0
                        (of_lang lang (examples st)))
           (examples st);
       examplesModified := true;
       localStorage := localStorage st |}.

(** What [JSON.parse(saved)] followed by the test [parsed.pt && parsed.en]
    comes to: an exception (a syntax error, or a value without
    properties), a value that fails the test, or a value with both lists.
    Values that pass the test without holding two lists of strings are not
    modelled. *)
Inductive Parsed :=
| Throws
| Unshaped
| Shaped (ex : Examples).

Section Json.

Variable stringify : Examples -> string.
Variable parse : string -> Parsed.

(** [saveExamples()] *)
Definition saveExamples (st : State) : State :=
  {| examples := examples st;
     examplesModified := false;
     localStorage := <[examples_key := stringify (examples st)]> (localStorage st) |}.

(** [loadExamples()] *)
Definition loadExamples (st : State) : State :=
  match localStorage st !! examples_key with
  | Some saved =>
      if ApiService.truthy (Some saved) then
        match parse saved with
        | Shaped parsed =>
            {| examples := parsed;
               examplesModified := examplesModified st;
               localStorage := localStorage st |}
        | _ => st
        end
      else st
  | None => st
  end.

End Json.

(** [resetExamples()] *)
Definition resetExamples (st : State) : State :=
  {| examples := DEFAULT_EXAMPLES;
     examplesModified := false;
     localStorage := base.delete examples_key (localStorage st) |}.

(** An edit made through the examples card. *)
Inductive Edit :=
| Update (lang : Lang) (index : nat) (value : string)
| Add (lang : Lang)
| Remove (lang : Lang) (index : nat).

Definition edit (e : Edit) (st : State) : State :=
  match e with
  | Update lang index value => updateExample lang index value st
  | Add lang => addExample lang st
  | Remove lang index => removeExample lang index st
  end.

(** A sequence of edits, first to last. *)
Definition edits (es : list Edit) (st : State) : State :=
  fold_left (fun s e => edit e s) es st.

End SettingsPage.

(* ===================================================================== *)
(** * AnalysisPage ([src/frontend/src/pages/AnalysisPage.tsx])            *)
(* ===================================================================== *)

Module AnalysisPage.

(** [interface AnalysisResponse] *)
Record AnalysisResponse := {
  r_sentiment : string;
  r_confidence : float;
  r_language : string;
  r_all_scores : list SentimentScore;
  r_text : string;
  r_cached : bool;
  r_response_time_ms : float;
  r_timestamp : string;
  r_record_id : option string
}.

(** [interface AnalysisResultWithText]; [originalText] is [validTexts[idx]],
    which is [undefined] past the end of the texts. *)
Record AnalysisResultWithText := {
  response : AnalysisResponse;
  originalText : option string
}.

Inductive Mode := single | batch.

(** The component's state. *)
Record State := {
  mode : Mode;
  singleText : string;
  batchTexts : list string;
  loading : bool;
  results : list AnalysisResultWithText;
  error : option string;
  examples : SettingsPage.Examples
}.

(** The state at mount. *)
Definition initial : State :=
  {| mode := single; singleText := EmptyString; batchTexts := [EmptyString];
     loading := false; results := []; error := None;
     examples := SettingsPage.DEFAULT_EXAMPLES |}.

(** The effect run at mount: the examples saved by the settings page, when
    there are some, replace the default ones.  [parse] is as in
    [SettingsPage.loadExamples]. *)
Definition loadSavedExamples (parse : string -> SettingsPage.Parsed)
    (storage : gmap string string) (st : State) : State :=
  match storage !! SettingsPage.examples_key with
  | Some saved =>
      if ApiService.truthy (Some saved) then
        match parse saved with
        | SettingsPage.Shaped parsed =>
            {| mode := mode st; singleText := singleText st;
               batchTexts := batchTexts st; loading := loading st;
               results := results st; error := error st;
               examples := parsed |}
        | _ => st
        end
      else st
  | None => st
  end.

(** The HTTP endpoints [POST /sentiment/analyze] and
    [POST /sentiment/analyze-batch], as [api.analyze] and
    [api.analyzeBatch] answer; [None] is a rejected request. *)
Definition AnalyzeEndpoint := string -> option AnalysisResponse.
Definition BatchEndpoint := list string -> option (list AnalysisResponse).

Section Trim.

(** [String.prototype.trim] is the browser's: it removes the white space
    and the line terminators of Unicode from both ends. *)
Variable trim : string -> string.

(** [!t.trim()]: nothing is left of [t] once trimmed. *)
Definition blank (t : string) : bool := String.eqb (trim t) "".

(** [handleAnalyzeSingle()] *)
Definition handleAnalyzeSingle (http : AnalyzeEndpoint) (st : State) : State :=
  if blank (singleText st) then st
  else
    match http (singleText st) with
    | Some result =>
        {| mode := mode st; singleText := singleText st;
           batchTexts := batchTexts st; loading := false;
           results := [{| response := result;
                          originalText := Some (singleText st) |}];
           error := None;
           examples := examples st |}
    | None =>
        {| mode := mode st; singleText := singleText st;
           batchTexts := batchTexts st; loading := false;
           results := results st;
           error := Some "Falha ao analisar o texto. Tente novamente.";
           examples := examples st |}
    end.

(** [batchTexts.filter(t => t.trim())] *)
Definition validTexts (st : State) : list string :=
  List.filter (fun t => negb (blank t)) (batchTexts st).

(** [handleAnalyzeBatch()] *)
Definition handleAnalyzeBatch (http : BatchEndpoint) (st : State) : State :=
  match validTexts st with
  | [] => st
  | texts =>
      match http texts with
      | Some served =>
          {| mode := mode st; singleText := singleText st;
             batchTexts := batchTexts st; loading := false;
             results := imap (fun idx r => {| response := r;
                                              originalText := texts !! idx |})
                             served;
             error := None;
             examples := examples st |}
      | None =>
          {| mode := mode st; singleText := singleText st;
             batchTexts := batchTexts st; loading := false;
             results := results st;
             error := Some "Falha ao analisar em lote. Tente novamente.";
             examples := examples st |}
      end
  end.

(** [addBatchInput()] *)
Definition addBatchInput (st : State) : State :=
  {| mode := mode st; singleText := singleText st;
     batchTexts := (batchTexts st ++ [EmptyString])%list;
     loading := loading st; results := results st; error := error st;
     examples := examples st |}.

(** [removeBatchInput(index)] *)
Definition removeBatchInput (index : nat) (st : State) : State :=
  {| mode := mode st; singleText := singleText st;
     batchTexts := SettingsPage.filter_from (fun i => negb (Nat.eqb i index)) 0
                     (batchTexts st);
     loading := loading st; results := results st; error := error st;
     examples := examples st |}.

(** [loadExample(text)] *)
Definition loadExample (text : string) (st : State) : State :=
  match mode st with
  | single =>
      {| mode := mode st; singleText := text; batchTexts := batchTexts st;
         loading := loading st; results := results st; error := error st;
         examples := examples st |}
  | batch =>
      {| mode := mode st; singleText := singleText st;
         batchTexts := (validTexts st ++ [text])%list;
         loading := loading st; results := results st; error := error st;
         examples := examples st |}
  end.

End Trim.

(** [clearResults()] *)
Definition clearResults (st : State) : State :=
  {| mode := mode st; singleText := singleText st;
     batchTexts := batchTexts st; loading := loading st;
     results := []; error := None;
     examples := examples st |}.

End AnalysisPage.

(* ===================================================================== *)
(** * Further sample data                                                 *)
(* ===================================================================== *)

Definition sample_user : ApiAuth.User :=
  {| ApiAuth.user_id := "u-1"; ApiAuth.username := "ana";
     ApiAuth.email := "ana@example.org"; ApiAuth.full_name := None;
     ApiAuth.is_active := true; ApiAuth.is_admin := false;
     ApiAuth.user_created_at := "2025-01-01T10:00:00Z";
     ApiAuth.last_login := None |}.

Definition sample_credentials : ApiAuth.LoginRequest :=
  {| ApiAuth.login_username := "ana"; ApiAuth.login_password := "secret" |}.

(** The settings page after the user rewrote the first English example. *)
Definition edited_examples : SettingsPage.State :=
  SettingsPage.updateExample SettingsPage.en 0 "What a day!"
    (SettingsPage.mount ∅).

(** A stand-in for [JSON.stringify] and [JSON.parse] that knows one value,
    the examples of [edited_examples]. *)
Definition toy_stringify (ex : SettingsPage.Examples) : string :=
  "edited examples".

Definition toy_parse (saved : string) : SettingsPage.Parsed :=
  if String.eqb saved "edited examples"
  then SettingsPage.Shaped (SettingsPage.examples edited_examples)
  else SettingsPage.Throws.

(** A batch service that answers every text with the same scores. *)
Definition echo_service : AnalysisPage.BatchEndpoint :=
  fun texts =>
    Some (map (fun t => {| AnalysisPage.r_sentiment := "neutral";
                           AnalysisPage.r_confidence := 0.5%float;
                           AnalysisPage.r_language := "en";
                           AnalysisPage.r_all_scores := [];
                           AnalysisPage.r_text := t;
                           AnalysisPage.r_cached := false;
                           AnalysisPage.r_response_time_ms := 12%float;
                           AnalysisPage.r_timestamp := "2025-01-01T10:00:00Z";
                           AnalysisPage.r_record_id := None |})
              texts).

(** [trim] on texts of ASCII characters, the only ones the samples hold:
    there the white space is the space and the characters 9 to 13. *)
Definition ascii_white (c : ascii) : bool :=
  let n := nat_of_ascii c in
  (Nat.eqb n 32 || (Nat.leb 9 n && Nat.leb n 13))%bool.

Fixpoint drop_white (cs : list ascii) : list ascii :=
  match cs with
  | [] => []
  | c :: rest => if ascii_white c then drop_white rest else cs
  end.

Definition ascii_trim (t : string) : string :=
  string_of_list_ascii
    (rev (drop_white (rev (drop_white (list_ascii_of_string t))))).

(** The analysis page in batch mode with two texts around a blank input. *)
Definition two_texts_and_a_blank : AnalysisPage.State :=
  {| AnalysisPage.mode := AnalysisPage.batch;
     AnalysisPage.singleText := "";
     AnalysisPage.batchTexts := ["so good"; "   "; "so bad"];
     AnalysisPage.loading := false;
     AnalysisPage.results := [];
     AnalysisPage.error := None;
     AnalysisPage.examples := SettingsPage.DEFAULT_EXAMPLES |}.

(** The logs page showing two rows. *)
Definition two_rows : LogsPage.State :=
  {| LogsPage.history := [page_item 0.9%float "positive";
                          ApiService.repair sample_raw];
     LogsPage.total := 2; LogsPage.loading := false;
     LogsPage.error := None; LogsPage.searchTerm := "";
     LogsPage.filterSentiment := None; LogsPage.page := 1 |}.


(** The logs page on a total of sixteen records. *)
Definition sixteen_rows : LogsPage.State :=
  {| LogsPage.history := []; LogsPage.total := 16; LogsPage.loading := false;
     LogsPage.error := None; LogsPage.searchTerm := "";
     LogsPage.filterSentiment := None; LogsPage.page := 1 |}.

(** What follows does not begin with a double quote. *)
Definition no_quote_ahead (s : string) : Prop :=
  match s with
  | String c _ => Ascii.eqb c LogsExport.dquote = false
  | EmptyString => True
  end.

(** The count an entry list holds for a label. *)
Definition held_count (l : Sentiment) (entries : list (Sentiment * nat))
    : nat :=
  sum_list (map (fun e => if bool_decide (fst e = l) then snd e else 0%nat)
                entries).

(** The number of times a label occurs among [labels]. *)
Definition times_seen (l : Sentiment) (labels : list Sentiment) : nat :=
  length (List.filter (fun x => bool_decide (x = l)) labels).

(* ===================================================================== *)
(** * Theorems                                                            *)
(* ===================================================================== *)

(** C9. For every integer day count, [getStats] asks for period ["7d"] when
    [days <= 7], ["30d"] when [7 < days <= 30], ["90d"] when
    [30 < days <= 90] and ["1y"] above; zero and negative counts give
    ["7d"]. *)
Theorem getStats_period_mapping (http : ApiService.StatsEndpoint) (days : Z) :
  ApiService.getStats http (Some days)
    = http (ApiService.stats_period days)
  /\ (days <= 7 -> ApiService.stats_period days = "7d")
  /\ (7 < days <= 30 -> ApiService.stats_period days = "30d")
  /\ (30 < days <= 90 -> ApiService.stats_period days = "90d")
  /\ (90 < days -> ApiService.stats_period days = "1y")
  /\ (days <= 0 -> ApiService.stats_period days = "7d").
Proof.
  unfold ApiService.getStats, ApiService.stats_period; simpl.
  repeat split; intros;
    repeat (case_match; try lia; try reflexivity).
Qed.

Lemma getStats_period_mapping_witness :
  ApiService.stats_period 45 = "90d".
Proof.
  apply (getStats_period_mapping (fun _ => None) 45). lia.
Defined.

(** ** [getHistory] *)

Lemma repaired_text_cases (raw : RawHistoryItem) :
  ApiService.repaired_text raw =
    match raw_text raw with
    | Some (String c s) => String c s
    | _ => default "" (raw_text_preview raw)
    end.
Proof.
  unfold ApiService.repaired_text, ApiService.js_or.
  destruct (raw_text raw) as [[|c s]|]; simpl;
    destruct (raw_text_preview raw) as [[|c' s']|]; reflexivity.
Qed.

(** C10. Every item that [getHistory] delivers has as [text] the backend's
    [text] when that is a non-empty string, otherwise the backend's
    [text_preview] when there is one, otherwise the empty string; every
    other field is the backend's. *)
Theorem getHistory_text_from_preview
    (http : ApiService.HistoryEndpoint) (filters : option HistoryFilters)
    (data : HistoryResponse RawHistoryItem) :
  http (ApiService.params filters) = Some data ->
  exists out,
    ApiService.getHistory http filters = Some out
    /\ pagination out = pagination data
    /\ length (items out) = length (items data)
    /\ forall (i : nat) (raw : RawHistoryItem),
         items data !! i = Some raw ->
         exists item,
           items out !! i = Some item
           /\ text item =
                (match raw_text raw with
                 | Some s => if decide (s = "")
                             then match raw_text_preview raw with
                                  | Some p => p
                                  | None => ""
                                  end
                             else s
                 | None => match raw_text_preview raw with
                           | Some p => p
                           | None => ""
                           end
                 end)
           /\ id item = raw_id raw
           /\ text_preview item = raw_text_preview raw
           /\ sentiment item = raw_sentiment raw
           /\ confidence item = raw_confidence raw
           /\ language item = raw_language raw
           /\ created_at item = raw_created_at raw
           /\ all_scores item = raw_all_scores raw.
Proof.
  intros Hhttp. unfold ApiService.getHistory. rewrite Hhttp.
  eexists. split; [reflexivity|]. simpl.
  split; [reflexivity|]. split; [apply length_map|].
  intros i raw Hi. exists (ApiService.repair raw).
  split; [by rewrite list_lookup_fmap, Hi|].
  split; [|by repeat split].
  simpl. rewrite repaired_text_cases.
  destruct (raw_text raw) as [[|c s]|]; simpl;
    destruct (raw_text_preview raw); reflexivity.
Qed.

Lemma getHistory_text_from_preview_witness :
  exists out,
    ApiService.getHistory
      (fun _ => Some {| items := [sample_raw]; pagination := None |}) None
      = Some out
    /\ text <$> items out = ["Great service"].
Proof.
  destruct (getHistory_text_from_preview
              (fun _ => Some {| items := [sample_raw]; pagination := None |})
              None {| items := [sample_raw]; pagination := None |}
              eq_refl)
    as (out & Hout & _ & _ & _).
  exists out. split; [exact Hout|].
  vm_compute in Hout. injection Hout as <-. reflexivity.
Defined.

(** ** Pagination of the logs page *)

Lemma ceil_div_least (a b k : Z) :
  0 < b -> (Js.ceil_div a b <= k <-> a <= k * b).
Proof.
  intros Hb. unfold Js.ceil_div.
  pose proof (Z.div_mod (a + b - 1) b) as Hdm.
  pose proof (Z.mod_pos_bound (a + b - 1) b Hb) as Hm.
  split; intros H; nia.
Qed.

Lemma click_keeps_total (c : LogsPage.Click) (st : LogsPage.State) :
  LogsPage.total (LogsPage.click c st) = LogsPage.total st.
Proof.
  unfold LogsPage.click. destruct c; repeat case_match; reflexivity.
Qed.

Lemma click_in_bounds (c : LogsPage.Click) (st : LogsPage.State) :
  1 <= LogsPage.page st
       <= Z.max 1 (LogsPage.totalPages (LogsPage.total st)) ->
  1 <= LogsPage.page (LogsPage.click c st)
       <= Z.max 1 (LogsPage.totalPages (LogsPage.total st)).
Proof.
  intros H. unfold LogsPage.click.
  destruct c; repeat case_match; simpl; lia.
Qed.

Lemma navigate_in_bounds (clicks : list LogsPage.Click) (st : LogsPage.State) :
  1 <= LogsPage.page st
       <= Z.max 1 (LogsPage.totalPages (LogsPage.total st)) ->
  LogsPage.total (LogsPage.navigate clicks st) = LogsPage.total st
  /\ 1 <= LogsPage.page (LogsPage.navigate clicks st)
          <= Z.max 1 (LogsPage.totalPages (LogsPage.total st)).
Proof.
  revert st. induction clicks as [|c clicks IH]; intros st H; [done|].
  simpl. pose proof (click_in_bounds c st H) as Hc.
  pose proof (click_keeps_total c st) as Ht.
  destruct (IH (LogsPage.click c st)) as [IHt IHp].
  { rewrite Ht. exact Hc. }
  rewrite Ht in IHt, IHp. done.
Qed.

(** C5, as the code has it. The number of pages is the ceiling of
    [total / 15], the least [k] with [total <= 15 * k]; under any sequence
    of Anterior / Proximo clicks the page number stays within
    [1 .. max 1 (ceil (total / 15))], which is [1 .. ceil (total / 15)] as
    soon as the query reported at least one record. *)
Theorem page_within_pages (total : Z) (clicks : list LogsPage.Click) :
  (forall k, LogsPage.totalPages total <= k <-> total <= k * 15)
  /\ 1 <= LogsPage.page_after total clicks
          <= Z.max 1 (LogsPage.totalPages total)
  /\ (1 <= total ->
      1 <= LogsPage.page_after total clicks <= LogsPage.totalPages total).
Proof.
  assert (Hceil : forall k, LogsPage.totalPages total <= k <-> total <= k * 15).
  { intros k. apply ceil_div_least. reflexivity. }
  assert (Hnav : 1 <= LogsPage.page_after total clicks
                      <= Z.max 1 (LogsPage.totalPages total)).
  { unfold LogsPage.page_after.
    match goal with
    | |- context [LogsPage.navigate clicks ?st] =>
        destruct (navigate_in_bounds clicks st) as [_ Hp]; [simpl; lia|]
    end.
    exact Hp. }
  split; [exact Hceil|]. split; [exact Hnav|].
  intros Htotal.
  assert (1 <= LogsPage.totalPages total).
  { destruct (Z_lt_le_dec (LogsPage.totalPages total) 1) as [Hlt|]; [|done].
    assert (LogsPage.totalPages total <= 0) as Hle by lia.
    apply Hceil in Hle. lia. }
  lia.
Qed.

Lemma page_within_pages_witness :
  1 <= LogsPage.page_after 31 [LogsPage.Proximo; LogsPage.Proximo;
                               LogsPage.Proximo; LogsPage.Anterior]
    <= LogsPage.totalPages 31.
Proof.
  apply (page_within_pages 31). lia.
Defined.

(** C5 as stated fails when the query reports no record: the page is 1 and
    there are 0 pages, with no click at all. *)
Lemma page_outside_pages_when_empty :
  LogsPage.page_after 0 [] = 1
  /\ LogsPage.totalPages 0 = 0
  /\ ~ (forall total clicks,
          0 <= total ->
          1 <= LogsPage.page_after total clicks <= LogsPage.totalPages total).
Proof.
  split; [reflexivity|]. split; [reflexivity|].
  intros H. specialize (H 0 [] (Z.le_refl 0)). vm_compute in H.
  destruct H as [_ H]. apply H. reflexivity.
Qed.

(** ** The dashboard's fallback statistics *)

Lemma fallback_taken (prev : option StatsResponse)
    (h : HistoryResponse HistoryItem) :
  items h <> [] ->
  DashboardPage.loadData_stats prev (Some h) None
    = Some (DashboardPage.fallback_stats h).
Proof.
  intros Hne. unfold DashboardPage.loadData_stats.
  destruct (items h); [done|reflexivity].
Qed.

(** C3, as the code has it. On the fallback path the dashboard reports
    [high_confidence_percentage]: the number of page items with confidence
    greater than or equal to 0.8, divided by the number of page items and
    multiplied by 100, in double arithmetic.  An item with confidence
    exactly 0.8 counts as high-confidence; the three records with
    confidences 0.93, 0.81 and 0.6 give (2 / 3) * 100. *)
Theorem fallback_high_confidence_percentage
    (prev : option StatsResponse) (h : HistoryResponse HistoryItem) :
  items h <> [] ->
  exists st,
    DashboardPage.loadData_stats prev (Some h) None = Some st
    /\ high_confidence_percentage st =
         PrimFloat.mul
           (PrimFloat.div
              (Js.of_nat
                 (length (List.filter
                            (fun item => PrimFloat.leb 0.8%float (confidence item))
                            (items h))))
              (Js.of_nat (length (items h))))
           100%float
    /\ (forall item, confidence item = 0.8%float ->
          List.filter DashboardPage.high_confidence [item] = [item])
    /\ (items h = items scenario_page ->
          high_confidence_percentage st
            = PrimFloat.mul (PrimFloat.div 2%float 3%float) 100%float).
Proof.
  intros Hne. exists (DashboardPage.fallback_stats h).
  split; [by apply fallback_taken|]. split; [reflexivity|]. split.
  - intros item Hc. simpl. unfold DashboardPage.high_confidence.
    rewrite Hc. reflexivity.
  - intros Hitems. simpl. unfold DashboardPage.highConfidencePercentage.
    rewrite Hitems. reflexivity.
Qed.

Lemma fallback_high_confidence_percentage_witness :
  exists st,
    DashboardPage.loadData_stats None (Some scenario_page) None = Some st
    /\ high_confidence_percentage st = 66.666666666666657%float.
Proof.
  destruct (fallback_high_confidence_percentage None scenario_page)
    as (st & Hst & Hpct & _ & _); [discriminate|].
  exists st. split; [exact Hst|]. rewrite Hpct. reflexivity.
Defined.

(** C3 as stated fails on the scenario: the value reported for the three
    records is 66.67 (a percentage), not the ratio 2 / 3. *)
Lemma fallback_reports_percentage_not_ratio :
  exists st,
    DashboardPage.loadData_stats None (Some scenario_page) None = Some st
    /\ high_confidence_percentage st = 66.666666666666657%float
    /\ high_confidence_percentage st <> PrimFloat.div 2%float 3%float.
Proof.
  eexists. split; [reflexivity|]. split; [reflexivity|].
  intros H.
  apply (f_equal (fun x => PrimFloat.eqb x (PrimFloat.div 2%float 3%float))) in H.
  vm_compute in H. discriminate H.
Qed.

(** ** Per-label counts *)

Lemma count_item_lookup (m : gmap string nat) (it : HistoryItem) (k : string) :
  default 0%nat (DashboardPage.count_item m it !! k)
    = (default 0%nat (m !! k) + occurrences k [it])%nat.
Proof.
  unfold DashboardPage.count_item, occurrences. simpl.
  destruct (String.eqb_spec (sentiment it) k) as [->|Hne].
  - rewrite lookup_insert_eq. simpl. lia.
  - rewrite lookup_insert_ne by done. simpl. lia.
Qed.

Lemma sentimentCount_from (its : list HistoryItem) (m : gmap string nat)
    (k : string) :
  default 0%nat (fold_left DashboardPage.count_item its m !! k)
    = (default 0%nat (m !! k) + occurrences k its)%nat.
Proof.
  revert m. induction its as [|it its IH]; intros m; simpl.
  - unfold occurrences. simpl. lia.
  - rewrite IH, count_item_lookup. unfold occurrences. simpl.
    destruct (String.eqb (sentiment it) k); simpl; lia.
Qed.

Lemma sentimentCount_occurrences (its : list HistoryItem) (k : string) :
  default 0%nat (DashboardPage.sentimentCount its !! k) = occurrences k its.
Proof.
  unfold DashboardPage.sentimentCount. rewrite sentimentCount_from.
  by rewrite lookup_empty.
Qed.

Lemma occurrences_three_labels (its : list HistoryItem) :
  (occurrences "positive" its + occurrences "negative" its
   + occurrences "neutral" its)%nat
  = length (List.filter labelled its).
Proof.
  unfold occurrences. induction its as [|it its IH]; [reflexivity|].
  simpl. unfold labelled at 1.
  destruct (String.eqb_spec (sentiment it) "positive") as [->|];
  destruct (String.eqb_spec (sentiment it) "negative") as [E|];
  destruct (String.eqb_spec (sentiment it) "neutral") as [E'|];
    try discriminate; simpl in *; try rewrite E in *; try discriminate;
    try rewrite E' in *; try discriminate; lia.
Qed.

Lemma labelled_typed (its : list HistoryItem) :
  Forall (fun it => exists l, sentiment it = label l) its ->
  List.filter labelled its = its.
Proof.
  induction 1 as [|it its [l Hl] _ IH]; [reflexivity|].
  simpl. unfold labelled at 1. rewrite Hl, IH. by destruct l.
Qed.

Lemma fallback_distribution_sum (h : HistoryResponse HistoryItem) :
  DashboardPage.distribution_sum
    (sentiment_distribution (DashboardPage.fallback_stats h))
  = length (List.filter labelled (items h)).
Proof.
  unfold DashboardPage.distribution_sum. simpl.
  rewrite !sentimentCount_occurrences. apply occurrences_three_labels.
Qed.

(** ** Distribution and total count *)

Lemma label_counts_total (rs : list RecordStore.AnalysisRecord) :
  (AnalyticsAggregator.count_label positive rs
   + AnalyticsAggregator.count_label negative rs
   + AnalyticsAggregator.count_label neutral rs)%nat = length rs.
Proof.
  unfold AnalyticsAggregator.count_label.
  induction rs as [|r rs IH]; [reflexivity|].
  simpl. destruct (RecordStore.rec_sentiment r); simpl; lia.
Qed.

Lemma dateRange_matches (a b : Z) (r : RecordStore.AnalysisRecord) :
  RecordStore.matches (RecordStore.dateRange a b) r
  = AnalyticsAggregator.within {| AnalyticsAggregator.from := a;
                                  AnalyticsAggregator.to := b |} r.
Proof.
  unfold RecordStore.matches, AnalyticsAggregator.within. simpl.
  by rewrite andb_true_r.
Qed.

Lemma aggregator_distribution_sum (s : RecordStore.Store)
    (range : AnalyticsAggregator.TimeRange) :
  DashboardPage.distribution_sum (AnalyticsAggregator.distribution s range)
  = RecordStore.totalCount
      (RecordStore.dateRange (AnalyticsAggregator.from range)
                             (AnalyticsAggregator.to range)) s.
Proof.
  unfold DashboardPage.distribution_sum, AnalyticsAggregator.distribution.
  simpl. rewrite label_counts_total. unfold RecordStore.totalCount. simpl.
  f_equal. apply List.filter_ext. intros r. rewrite dateRange_matches.
  by destruct range.
Qed.

(** C1, as the code has it. For every time range the per-label counts of
    the aggregator's distribution add up to the total count that a query
    with that date range reports.  On the dashboard's fallback path the
    per-label counts are taken over the items of the fetched page: they add
    up to the number of page items labelled positive, negative or neutral
    (all of them when the items are well typed), and to the reported
    [total_analyses] exactly when the response has no pagination total, a
    total of zero, or a total equal to the number of items on the page. *)
Theorem distribution_sum_and_total :
  (forall (s : RecordStore.Store) (range : AnalyticsAggregator.TimeRange),
     DashboardPage.distribution_sum (AnalyticsAggregator.distribution s range)
     = RecordStore.totalCount
         (RecordStore.dateRange (AnalyticsAggregator.from range)
                                (AnalyticsAggregator.to range)) s)
  /\ (forall (prev : option StatsResponse) (h : HistoryResponse HistoryItem),
        items h <> [] ->
        exists st,
          DashboardPage.loadData_stats prev (Some h) None = Some st
          /\ DashboardPage.distribution_sum (sentiment_distribution st)
             = length (List.filter labelled (items h))
          /\ (Forall (fun it => exists l, sentiment it = label l) (items h) ->
              DashboardPage.distribution_sum (sentiment_distribution st)
                = length (items h)
              /\ (Z.of_nat (DashboardPage.distribution_sum
                              (sentiment_distribution st))
                    = total_analyses st
                  <-> match pagination h with
                      | None => True
                      | Some p => Types.total p = 0
                                  \/ Types.total p = Z.of_nat (length (items h))
                      end))).
Proof.
  split; [exact aggregator_distribution_sum|].
  intros prev h Hne. exists (DashboardPage.fallback_stats h).
  split; [by apply fallback_taken|].
  split; [apply fallback_distribution_sum|].
  intros Htyped.
  rewrite fallback_distribution_sum, (labelled_typed _ Htyped).
  split; [reflexivity|].
  simpl. unfold DashboardPage.totalAnalyses.
  destruct (pagination h) as [p|]; [|done].
  destruct (Z.eqb_spec (Types.total p) 0); split; intros; try tauto; lia.
Qed.

Lemma distribution_sum_and_total_witness :
  exists st,
    DashboardPage.loadData_stats None (Some scenario_page) None = Some st
    /\ DashboardPage.distribution_sum (sentiment_distribution st) = 3%nat
    /\ total_analyses st = 3.
Proof.
  destruct distribution_sum_and_total as [_ H].
  destruct (H None scenario_page) as (st & Hst & Hsum & _); [discriminate|].
  exists st. split; [exact Hst|]. split; [exact Hsum|].
  vm_compute in Hst. injection Hst as <-. reflexivity.
Defined.

(** C1 as stated fails on the fallback path: with 21 records in the store
    the dashboard fetches a page of 20, reports a total of 21 and a
    distribution that adds up to 20, while the aggregator's distribution
    over the whole period adds up to 21. *)
Lemma fallback_distribution_misses_total :
  exists st,
    DashboardPage.loadData_stats None
      (ApiService.getHistory (example_endpoint store21) (Some dashboard_request))
      None = Some st
    /\ total_analyses st = 21
    /\ DashboardPage.distribution_sum (sentiment_distribution st) = 20%nat
    /\ Z.of_nat (DashboardPage.distribution_sum (sentiment_distribution st))
       <> total_analyses st
    /\ DashboardPage.distribution_sum
         (AnalyticsAggregator.distribution store21
            {| AnalyticsAggregator.from := 0; AnalyticsAggregator.to := 86399 |})
       = 21%nat.
Proof.
  eexists. split; [vm_compute; reflexivity|].
  split; [reflexivity|]. split; [vm_compute; reflexivity|].
  split; [vm_compute; discriminate|]. vm_compute; reflexivity.
Qed.

(** ** The logs page and the free-text search *)

Lemma string_app_cons (ch : ascii) (a b : string) :
  String ch a +:+ b = String ch (a +:+ b).
Proof. reflexivity. Qed.

Lemma string_app_nil (b : string) : "" +:+ b = b.
Proof. reflexivity. Qed.

Lemma string_app_assoc (a b c : string) :
  (a +:+ b) +:+ c = a +:+ (b +:+ c).
Proof.
  induction a as [|ch a IH]; [reflexivity|].
  by rewrite !string_app_cons, IH.
Qed.

Lemma startsWith_prefix (s p : string) :
  Js.startsWith s p = true <-> exists rest, s = p +:+ rest.
Proof.
  revert s. induction p as [|a p IH]; intros s.
  - split; [intros _; exists s; by rewrite string_app_nil|].
    intros _. by destruct s.
  - destruct s as [|b s].
    + split; [discriminate|].
      intros [rest H]. rewrite string_app_cons in H. discriminate.
    + cbn [Js.startsWith]. rewrite andb_true_iff, IH. split.
      * intros [Hab [rest ->]]. apply Ascii.eqb_eq in Hab as ->.
        exists rest. by rewrite string_app_cons.
      * intros [rest H]. rewrite string_app_cons in H.
        injection H as -> ->. split; [apply Ascii.eqb_refl|by exists rest].
Qed.

(** [s.includes(t)] holds exactly when [t] occurs in [s]. *)
Lemma includes_occurs (s t : string) :
  Js.includes s t = true <-> occurs_in t s.
Proof.
  unfold occurs_in. induction s as [|c s IH].
  - cbn [Js.includes]. rewrite orb_false_r, startsWith_prefix. split.
    + intros [rest H]. exists "", rest. by rewrite string_app_nil.
    + intros (before & after & H). destruct before as [|b before].
      * rewrite string_app_nil in H. by exists after.
      * rewrite string_app_cons in H. discriminate.
  - cbn [Js.includes]. rewrite orb_true_iff, startsWith_prefix, IH. split.
    + intros [[rest H]|(before & after & H)].
      * exists "", rest. by rewrite string_app_nil.
      * exists (String c before), after. by rewrite string_app_cons, H.
    + intros (before & after & H). destruct before as [|b before].
      * left. rewrite string_app_nil in H. by exists after.
      * right. rewrite string_app_cons in H. injection H as _ H.
        by exists before, after.
Qed.

Lemma matches_search_searched (toLowerCase : string -> string)
    (term : string) (item : HistoryItem) :
  LogsPage.matches_search toLowerCase term item = true
  <-> searched toLowerCase term item.
Proof.
  unfold LogsPage.matches_search, searched.
  by rewrite orb_true_iff, !includes_occurs.
Qed.

(** What [loadHistory] displays of the items [its] of a response. *)
Lemma shown_exactly (toLowerCase : string -> string) (term : string)
    (its : list HistoryItem) :
  LogsPage.shown toLowerCase term its
  = List.filter
      (fun item =>
         if decide (term = "") then true
         else Js.includes (toLowerCase (text item)) (toLowerCase term)
              || Js.includes (id item) term)
      its
  /\ LogsPage.shown toLowerCase term its `sublist_of` its
  /\ (forall item,
        In item (LogsPage.shown toLowerCase term its)
        <-> In item its /\ (term = "" \/ searched toLowerCase term item)).
Proof.
  unfold LogsPage.shown. destruct term as [|c term].
  - split; [|split].
    + induction its as [|it its IH]; [reflexivity|].
      cbn [List.filter]. by rewrite <- IH.
    + reflexivity.
    + intros item. split; [intros H; split; [exact H|by left]|by intros [H _]].
  - split; [|split].
    + reflexivity.
    + induction its as [|it its IH]; [reflexivity|].
      cbn [List.filter]. destruct (LogsPage.matches_search _ _ it).
      * by apply sublist_skip.
      * by apply sublist_cons.
    + intros item. rewrite List.filter_In, matches_search_searched.
      split; [intros [H1 H2]; split; [exact H1|by right]|].
      intros [H1 [H2|H2]]; [discriminate|by split].
Qed.

(** C2, as the code has it. A history query of the logs page sends the
    sentiment filter, the page and the sort order to the store; the search
    term is applied afterwards, in the browser, to the items of the page
    that came back.  With no term the whole page is shown; with a term the
    items shown are those of the page, in the page's order, whose
    lower-cased text holds the lower-cased term or whose id holds the term
    ([toLowerCase] being the browser's).  The total reported is the number
    of records matching the sentiment filter, whatever the search term. *)
Theorem loadHistory_searches_the_page
    (toLowerCase : string -> string)
    (preview : string -> string) (iso : Z -> string)
    (parse_date : string -> option Z) (default_limit : Z)
    (s : RecordStore.Store) (st : LogsPage.State) :
  let term := LogsPage.searchTerm st in
  let sent := RecordStore.query (sentiment_only (LogsPage.filterSentiment st))
                RecordStore.ByCreatedAt RecordStore.Desc
                {| RecordStore.number := LogsPage.page st;
                   RecordStore.size := 15 |} s in
  let page_items :=
    map (fun r => ApiService.repair (Facade.to_raw preview iso r)) (fst sent) in
  let st' := LogsPage.loadHistory toLowerCase
               (Facade.history preview iso parse_date default_limit s) st in
  LogsPage.history st' =
    List.filter
      (fun item =>
         if decide (term = "") then true
         else Js.includes (toLowerCase (text item)) (toLowerCase term)
              || Js.includes (id item) term)
      page_items
  /\ LogsPage.history st' `sublist_of` page_items
  /\ (forall item,
        In item (LogsPage.history st')
        <-> In item page_items
            /\ (term = ""
                \/ (exists before after,
                      toLowerCase (text item)
                      = before +:+ toLowerCase term +:+ after)
                \/ (exists before after,
                      id item = before +:+ term +:+ after)))
  /\ LogsPage.total st' = Z.of_nat (snd sent)
  /\ snd sent =
       length (List.filter
                 (fun r => match LogsPage.filterSentiment st with
                           | Some l => bool_decide (RecordStore.rec_sentiment r = l)
                           | None => true
                           end)
                 (RecordStore.records s)).
Proof.
  intros term sent page_items st'.
  assert (Hst' : st' = LogsPage.loadHistory toLowerCase
                         (Facade.history preview iso parse_date default_limit s) st)
    by reflexivity.
  unfold LogsPage.loadHistory, ApiService.getHistory, Facade.history in Hst'.
  simpl in Hst'. rewrite map_map in Hst'. fold sent page_items term in Hst'.
  destruct (shown_exactly toLowerCase term page_items) as (Heq & Hsub & Hin).
  rewrite Hst'. cbn [LogsPage.history LogsPage.total].
  split; [exact Heq|]. split; [exact Hsub|]. split; [exact Hin|].
  split; [reflexivity|].
  subst sent. simpl. f_equal. apply List.filter_ext. intros r.
  unfold RecordStore.matches. simpl.
  rewrite !andb_true_r. reflexivity.
Qed.

(** C2 as stated fails: one of sixteen records matches the search term, on
    the second page.  The store's query with all filters returns that
    record and a total of 1; the logs page shows no item and a total of
    16. *)
Lemma search_misses_matching_record :
  let st' := LogsPage.loadHistory ascii_toLowerCase
               (example_endpoint store16) searching_good in
  let all := RecordStore.query (sentiment_and_text None "good")
               RecordStore.ByCreatedAt RecordStore.Desc
               {| RecordStore.number := 1; RecordStore.size := 15 |} store16 in
  map RecordStore.rec_text (fst all) = ["good day"]
  /\ snd all = 1%nat
  /\ LogsPage.history st' = []
  /\ LogsPage.total st' = 16
  /\ LogsPage.total st' <> Z.of_nat (snd all).
Proof.
  vm_compute. repeat split; discriminate.
Qed.

(** ** Deleting a record *)

Lemma existsb_without (id : string) (rs : list RecordStore.AnalysisRecord) :
  existsb (RecordStore.has_id id)
          (List.filter (fun r => negb (RecordStore.has_id id r)) rs) = false.
Proof.
  induction rs as [|r rs IH]; [reflexivity|].
  simpl. destruct (RecordStore.has_id id r) eqn:E; simpl; [exact IH|].
  by rewrite E, IH.
Qed.

Lemma find_without (id : string) (rs : list RecordStore.AnalysisRecord) :
  List.find (RecordStore.has_id id)
            (List.filter (fun r => negb (RecordStore.has_id id r)) rs) = None.
Proof.
  induction rs as [|r rs IH]; [reflexivity|].
  simpl. destruct (RecordStore.has_id id r) eqn:E; simpl; [exact IH|].
  by rewrite E, IH.
Qed.

Lemma existsb_has_id (id : string) (rs : list RecordStore.AnalysisRecord) :
  In id (map RecordStore.rec_id rs) ->
  existsb (RecordStore.has_id id) rs = true.
Proof.
  intros Hin. apply in_map_iff in Hin as (r & Hr & Hin).
  apply existsb_exists. exists r. split; [exact Hin|].
  unfold RecordStore.has_id. by apply String.eqb_eq.
Qed.

(** C4. Deleting the id of a stored record twice in succession: the first
    call answers [true], the second answers [false], the not-found signal;
    both are ordinary results, and the second call leaves the store as the
    first one left it.  In the client, [handleDelete] reports an error only
    when the delete request itself is rejected. *)
Theorem delete_twice (id : string) (s : RecordStore.Store) :
  In id (map RecordStore.rec_id (RecordStore.records s)) ->
  let first := RecordStore.delete id s in
  let second := RecordStore.delete id (fst first) in
  snd first = true
  /\ snd second = false
  /\ fst second = fst first
  /\ RecordStore.get id (fst first) = None
  /\ (forall (http : ApiService.DeleteEndpoint) (confirmed : bool)
             (st : LogsPage.State),
        http id = true ->
        LogsPage.error (LogsPage.handleDelete http confirmed id st)
        = LogsPage.error st).
Proof.
  intros Hin first second.
  assert (Hclient :
    forall (http : ApiService.DeleteEndpoint) (confirmed : bool)
           (st : LogsPage.State),
      http id = true ->
      LogsPage.error (LogsPage.handleDelete http confirmed id st)
      = LogsPage.error st).
  { intros http confirmed st Hok.
    unfold LogsPage.handleDelete, ApiService.deleteAnalysis. rewrite Hok.
    by destruct confirmed. }
  assert (Hfirst : first =
    ({| RecordStore.records :=
          List.filter (fun r => negb (RecordStore.has_id id r))
                      (RecordStore.records s);
        RecordStore.next_id := RecordStore.next_id s |}, true)).
  { subst first. unfold RecordStore.delete.
    by rewrite (existsb_has_id _ _ Hin). }
  subst second. rewrite Hfirst. simpl.
  unfold RecordStore.delete, RecordStore.get. simpl.
  rewrite existsb_without. simpl.
  repeat split; [apply find_without|exact Hclient].
Qed.

Lemma delete_twice_witness :
  snd (RecordStore.delete "rec-3" store21) = true
  /\ snd (RecordStore.delete "rec-3"
            (fst (RecordStore.delete "rec-3" store21))) = false.
Proof.
  destruct (delete_twice "rec-3" store21) as (H1 & H2 & _).
  - vm_compute. tauto.
  - split; [exact H1|exact H2].
Defined.

(** ** Daily volume *)

Lemma day_of_first (d : Z) :
  AnalyticsAggregator.day_of (d * AnalyticsAggregator.seconds_per_day) = d.
Proof.
  unfold AnalyticsAggregator.day_of, AnalyticsAggregator.seconds_per_day.
  by apply Z.div_mul.
Qed.

Lemma day_of_last (d : Z) :
  AnalyticsAggregator.day_of (d * AnalyticsAggregator.seconds_per_day - 1)
  = d - 1.
Proof.
  unfold AnalyticsAggregator.day_of, AnalyticsAggregator.seconds_per_day.
  symmetry. apply (Z.div_unique _ _ _ 86399); lia.
Qed.

Lemma day_bounds (t d : Z) :
  AnalyticsAggregator.day_of t = d ->
  d * 86400 <= t < (d + 1) * 86400.
Proof.
  unfold AnalyticsAggregator.day_of, AnalyticsAggregator.seconds_per_day.
  intros <-. pose proof (Z.div_mod t 86400). 
  pose proof (Z.mod_pos_bound t 86400). lia.
Qed.

Lemma on_day_within (d0 d : Z) (n : nat) (r : RecordStore.AnalysisRecord) :
  d0 <= d < d0 + Z.of_nat n ->
  AnalyticsAggregator.on_day d r = true ->
  AnalyticsAggregator.within (AnalyticsAggregator.whole_days d0 n) r = true.
Proof.
  intros Hd Hon. unfold AnalyticsAggregator.on_day in Hon.
  apply Z.eqb_eq, day_bounds in Hon.
  unfold AnalyticsAggregator.within, AnalyticsAggregator.whole_days,
    RecordStore.in_range, AnalyticsAggregator.seconds_per_day. simpl.
  apply andb_true_iff. split; apply Z.leb_le; nia.
Qed.

Lemma day_records_in_range (d0 d : Z) (n : nat)
    (rs : list RecordStore.AnalysisRecord) :
  d0 <= d < d0 + Z.of_nat n ->
  List.filter (AnalyticsAggregator.on_day d)
    (List.filter
       (AnalyticsAggregator.within (AnalyticsAggregator.whole_days d0 n)) rs)
  = List.filter (AnalyticsAggregator.on_day d) rs.
Proof.
  intros Hd. induction rs as [|r rs IH]; [reflexivity|].
  simpl. destruct (AnalyticsAggregator.on_day d r) eqn:Hon.
  - rewrite (on_day_within d0 d n r Hd Hon). simpl. by rewrite Hon, IH.
  - destruct (AnalyticsAggregator.within _ r); simpl; [by rewrite Hon|done].
Qed.

Lemma empty_day_count (d : Z) (rs : list RecordStore.AnalysisRecord) :
  (forall r, In r rs ->
     AnalyticsAggregator.day_of (RecordStore.rec_created_at r) <> d) ->
  length (List.filter
            (fun r => (AnalyticsAggregator.day_of (RecordStore.rec_created_at r)
                       =? d)%Z) rs) = 0%nat.
Proof.
  induction rs as [|r rs IH]; intros Hnone; [reflexivity|].
  simpl. destruct (Z.eqb_spec
    (AnalyticsAggregator.day_of (RecordStore.rec_created_at r)) d) as [E|_].
  - exfalso. apply (Hnone r); [by left|exact E].
  - apply IH. intros r' Hr'. apply Hnone. by right.
Qed.

(** C8. Over a range of [n] whole days, [dailyVolume] returns exactly [n]
    entries, in date order, the [i]-th for day [d0 + i] with the number of
    records written that day; a day without records has its entry, with
    count 0. *)
Theorem dailyVolume_dense (s : RecordStore.Store) (d0 : Z) (n : nat) :
  let volume :=
    AnalyticsAggregator.dailyVolume s (AnalyticsAggregator.whole_days d0 n) in
  length volume = n
  /\ (forall i : nat, (i < n)%nat ->
        exists e,
          volume !! i = Some e
          /\ AnalyticsAggregator.date e = d0 + Z.of_nat i
          /\ AnalyticsAggregator.count e
             = length (List.filter
                         (fun r => (AnalyticsAggregator.day_of
                                      (RecordStore.rec_created_at r)
                                    =? d0 + Z.of_nat i)%Z)
                         (RecordStore.records s))
          /\ ((forall r, In r (RecordStore.records s) ->
                 AnalyticsAggregator.day_of (RecordStore.rec_created_at r)
                 <> d0 + Z.of_nat i) ->
              AnalyticsAggregator.count e = 0%nat)).
Proof.
  intros volume. subst volume. unfold AnalyticsAggregator.dailyVolume.
  assert (Hspan :
    AnalyticsAggregator.day_of
      (AnalyticsAggregator.to (AnalyticsAggregator.whole_days d0 n))
    - AnalyticsAggregator.day_of
        (AnalyticsAggregator.from (AnalyticsAggregator.whole_days d0 n)) + 1
    = Z.of_nat n).
  { simpl. rewrite day_of_first, day_of_last. lia. }
  rewrite Hspan. split.
  - rewrite length_map, length_seqZ. lia.
  - intros i Hi.
    exists (AnalyticsAggregator.daily_entry
              (List.filter (AnalyticsAggregator.within
                              (AnalyticsAggregator.whole_days d0 n))
                           (RecordStore.records s))
              (d0 + Z.of_nat i)).
    assert (Hcount :
      AnalyticsAggregator.count
        (AnalyticsAggregator.daily_entry
           (List.filter (AnalyticsAggregator.within
                           (AnalyticsAggregator.whole_days d0 n))
                        (RecordStore.records s))
           (d0 + Z.of_nat i))
      = length (List.filter
                  (fun r => (AnalyticsAggregator.day_of
                               (RecordStore.rec_created_at r)
                             =? d0 + Z.of_nat i)%Z)
                  (RecordStore.records s))).
    { simpl. rewrite day_records_in_range by lia. reflexivity. }
    split; [|split; [reflexivity|split; [exact Hcount|]]].
    + rewrite list_lookup_fmap. simpl. rewrite day_of_first.
      rewrite (proj2 (lookup_seqZ d0 (Z.of_nat n) i (d0 + Z.of_nat i)));
        [reflexivity|lia].
    + intros Hnone. rewrite Hcount. by apply empty_day_count.
Qed.

Lemma dailyVolume_dense_witness :
  length (AnalyticsAggregator.dailyVolume three_day_store
            (AnalyticsAggregator.whole_days 0 3)) = 3%nat
  /\ exists e,
       AnalyticsAggregator.dailyVolume three_day_store
         (AnalyticsAggregator.whole_days 0 3) !! 1%nat = Some e
       /\ AnalyticsAggregator.count e = 0%nat.
Proof.
  destruct (dailyVolume_dense three_day_store 0 3) as [Hlen Hentry].
  split; [exact Hlen|].
  destruct (Hentry 1%nat) as (e & He & _ & _ & Hzero); [lia|].
  exists e. split; [exact He|]. apply Hzero.
  intros r Hr. vm_compute in Hr.
  destruct Hr as [<-|[<-|[<-|[]]]]; vm_compute; discriminate.
Defined.

(** ** The result cache *)

Section CacheProofs.
Import ResultCache.
Local Open Scope list_scope.












End CacheProofs.




(** ** The rate limiter *)

Section LimiterProofs.
Import RateLimiter.











End LimiterProofs.




(* ===================================================================== *)
(** * Further properties of the client                                    *)
(* ===================================================================== *)

(** ** The session *)

(** X1. After [logout] the client is not authenticated and sends no
    [Authorization] header, the saved token is gone from [localStorage]
    while every other key is kept, and a page reload finds the client
    logged out as well. *)
Theorem logout_forgets_token (c : ApiAuth.Client) :
  ApiAuth.isAuthenticated (ApiAuth.logout c) = false
  /\ ApiAuth.authorization (ApiAuth.logout c) = None
  /\ ApiAuth.localStorage (ApiAuth.logout c) !! ApiAuth.token_key = None
  /\ (forall k, k <> ApiAuth.token_key ->
        ApiAuth.localStorage (ApiAuth.logout c) !! k
        = ApiAuth.localStorage c !! k)
  /\ ApiAuth.construct (ApiAuth.localStorage (ApiAuth.logout c))
     = ApiAuth.logout c.
Proof.
  unfold ApiAuth.logout, ApiAuth.construct, ApiAuth.isAuthenticated,
    ApiAuth.authorization. simpl.
  rewrite lookup_delete_eq. repeat split.
  intros k Hk. by rewrite lookup_delete_ne.
Qed.

(** X2. A rejected login leaves the client as it was.  An accepted login
    with a non-empty access token makes the client authenticated, puts
    [Bearer <token>] on the requests, and saves the token so that a page
    reload restores the same session; with an empty access token the
    client is not authenticated, now or after a reload. *)
Theorem login_keeps_session (http : ApiAuth.LoginEndpoint)
    (credentials : ApiAuth.LoginRequest) (c : ApiAuth.Client) :
  let c' := fst (ApiAuth.login http credentials c) in
  match http credentials with
  | None => ApiAuth.login http credentials c = (c, None)
  | Some data =>
      snd (ApiAuth.login http credentials c) = Some data
      /\ (ApiAuth.access_token data <> "" ->
          ApiAuth.isAuthenticated c' = true
          /\ ApiAuth.authorization c'
             = Some ("Bearer " +:+ ApiAuth.access_token data)
          /\ ApiAuth.construct (ApiAuth.localStorage c') = c')
      /\ (ApiAuth.access_token data = "" ->
          ApiAuth.isAuthenticated c' = false
          /\ ApiAuth.authorization c' = None
          /\ ApiAuth.isAuthenticated
               (ApiAuth.construct (ApiAuth.localStorage c')) = false)
  end.
Proof.
  intros c'. subst c'. unfold ApiAuth.login.
  destruct (http credentials) as [data|]; [|reflexivity].
  simpl. split; [reflexivity|].
  unfold ApiAuth.isAuthenticated, ApiAuth.authorization, ApiAuth.construct.
  simpl. rewrite !lookup_insert_eq.
  destruct (ApiAuth.access_token data) as [|ch rest] eqn:E; simpl.
  - split; [done|]. by intros _.
  - split; [by intros _|]. discriminate.
Qed.

Lemma login_keeps_session_witness :
  let data := {| ApiAuth.access_token := "abc.def.ghi";
                 ApiAuth.token_type := "bearer";
                 ApiAuth.expires_in := 3600;
                 ApiAuth.user := sample_user |} in
  let c' := fst (ApiAuth.login (fun _ => Some data) sample_credentials
                   (ApiAuth.construct ∅)) in
  ApiAuth.isAuthenticated c' = true
  /\ ApiAuth.authorization c' = Some "Bearer abc.def.ghi"
  /\ ApiAuth.construct (ApiAuth.localStorage c') = c'.
Proof.
  intros data c'.
  pose proof (login_keeps_session (fun _ => Some data) sample_credentials
                (ApiAuth.construct ∅)) as H.
  simpl in H. destruct H as (_ & H & _). apply H. discriminate.
Defined.

(** ** The history request *)

(** X3. [getHistory] sends the filters it was given with the entries
    whose value is the empty string left out, and nothing else changed: a
    language, date or sort entry is sent as it is unless it is the empty
    string, in which case it is not sent; sentiment, confidence bounds,
    page and limit are sent as they are.  So an empty entry is the same as
    none, cleaning twice changes nothing, and calling [getHistory] without
    filters is calling it with no filter set. *)
Theorem getHistory_drops_empty_filters (http : ApiService.HistoryEndpoint)
    (filters : HistoryFilters) :
  let sent := ApiService.params (Some filters) in
  let kept (value : option string) :=
    if decide (value = Some "") then None else value in
  f_language sent = kept (f_language filters)
  /\ f_start_date sent = kept (f_start_date filters)
  /\ f_end_date sent = kept (f_end_date filters)
  /\ f_sort_by sent = kept (f_sort_by filters)
  /\ f_sort_order sent = kept (f_sort_order filters)
  /\ f_sentiment sent = f_sentiment filters
  /\ f_min_confidence sent = f_min_confidence filters
  /\ f_max_confidence sent = f_max_confidence filters
  /\ f_page sent = f_page filters
  /\ f_limit sent = f_limit filters
  /\ f_language sent <> Some ""
  /\ f_start_date sent <> Some ""
  /\ f_end_date sent <> Some ""
  /\ f_sort_by sent <> Some ""
  /\ f_sort_order sent <> Some ""
  /\ ApiService.params (Some sent) = sent
  /\ ApiService.getHistory http (Some filters)
     = match http sent with
       | Some data => Some {| items := map ApiService.repair (items data);
                              pagination := pagination data |}
       | None => None
       end
  /\ ApiService.getHistory http (Some filters)
     = ApiService.getHistory http (Some sent)
  /\ ApiService.getHistory http None
     = ApiService.getHistory http (Some no_filters).
Proof.
  assert (Hk : forall o, ApiService.present o
                         = if decide (o = Some "") then None else o).
  { intros [[|c s]|]; reflexivity. }
  assert (Hp : forall o, ApiService.present o <> Some "").
  { intros [[|c s]|]; simpl; discriminate. }
  assert (Hpp : forall o, ApiService.present (ApiService.present o)
                          = ApiService.present o).
  { intros [[|c s]|]; reflexivity. }
  intros sent kept.
  assert (Hidem : ApiService.params (Some sent) = sent).
  { subst sent. unfold ApiService.params. simpl. by rewrite !Hpp. }
  subst kept. cbv beta.
  do 5 (split; [exact (Hk _)|]).
  do 5 (split; [reflexivity|]).
  do 5 (split; [exact (Hp _)|]).
  split; [exact Hidem|]. split.
  - reflexivity.
  - split; [|reflexivity].
    unfold ApiService.getHistory. fold sent. by rewrite Hidem.
Qed.

(** ** Deleting from the logs page *)

Lemma filter_sublist {A} (f : A -> bool) (l : list A) :
  List.filter f l `sublist_of` l.
Proof.
  induction l as [|x l IH]; simpl; [constructor|].
  destruct (f x); by constructor.
Qed.

Lemma filter_twice {A} (f : A -> bool) (l : list A) :
  List.filter f (List.filter f l) = List.filter f l.
Proof.
  induction l as [|x l IH]; simpl; [reflexivity|].
  destruct (f x) eqn:E; simpl; [by rewrite E, IH|exact IH].
Qed.

(** X4. [handleDelete]: when the user cancels the dialog nothing changes.
    When the request is rejected, list and total are kept and the error
    message is set.  When it succeeds, the displayed list loses exactly the
    items with that id, the others staying in their order, the total
    drops by one, and page, search term and sentiment filter are kept. *)
Theorem handleDelete_outcomes (http : ApiService.DeleteEndpoint)
    (confirmed : bool) (id : string) (st : LogsPage.State) :
  let st' := LogsPage.handleDelete http confirmed id st in
  (confirmed = false -> st' = st)
  /\ (confirmed = true -> http id = false ->
      LogsPage.history st' = LogsPage.history st
      /\ LogsPage.total st' = LogsPage.total st
      /\ LogsPage.error st' = Some "Falha ao excluir análise")
  /\ (confirmed = true -> http id = true ->
      LogsPage.total st' = LogsPage.total st - 1
      /\ (forall item, In item (LogsPage.history st')
                       <-> In item (LogsPage.history st)
                           /\ Types.id item <> id)
      /\ LogsPage.history st' `sublist_of` LogsPage.history st
      /\ LogsPage.error st' = LogsPage.error st)
  /\ LogsPage.page st' = LogsPage.page st
  /\ LogsPage.searchTerm st' = LogsPage.searchTerm st
  /\ LogsPage.filterSentiment st' = LogsPage.filterSentiment st.
Proof.
  intros st'. subst st'.
  unfold LogsPage.handleDelete, ApiService.deleteAnalysis.
  destruct confirmed; simpl; [|by repeat split].
  destruct (http id); simpl.
  - split; [discriminate|]. split; [discriminate|].
    split; [|by repeat split]. intros _ _.
    split; [reflexivity|]. split; [|split; [apply filter_sublist|reflexivity]].
    intros item. rewrite List.filter_In, negb_true_iff, String.eqb_neq.
    reflexivity.
  - split; [discriminate|]. by repeat split.
Qed.

Lemma handleDelete_outcomes_witness :
  Types.id <$> LogsPage.history
                 (LogsPage.handleDelete (fun _ => true) true "rec-7" two_rows)
    = ["rec"]
  /\ LogsPage.total
       (LogsPage.handleDelete (fun _ => true) true "rec-7" two_rows) = 1.
Proof.
  destruct (handleDelete_outcomes (fun _ => true) true "rec-7" two_rows)
    as (_ & _ & Hok & _).
  destruct (Hok eq_refl eq_refl) as (Htotal & _).
  split; [reflexivity|exact Htotal].
Defined.

(** X5. The total is decremented by every delete request that succeeds,
    whether or not an item with that id was displayed: two successful
    deletes of the same id change the displayed list once and the total
    twice. *)
Theorem handleDelete_twice_counts_twice (http : ApiService.DeleteEndpoint)
    (id : string) (st : LogsPage.State) :
  http id = true ->
  let once := LogsPage.handleDelete http true id st in
  let twice := LogsPage.handleDelete http true id once in
  LogsPage.history twice = LogsPage.history once
  /\ LogsPage.total once = LogsPage.total st - 1
  /\ LogsPage.total twice = LogsPage.total st - 2.
Proof.
  intros Hok once twice. subst once twice.
  unfold LogsPage.handleDelete, ApiService.deleteAnalysis.
  rewrite Hok. simpl. rewrite filter_twice. repeat split; lia.
Qed.

Lemma handleDelete_twice_counts_twice_witness :
  LogsPage.total
    (LogsPage.handleDelete (fun _ => true) true "rec-7"
       (LogsPage.handleDelete (fun _ => true) true "rec-7" two_rows)) = 0.
Proof.
  destruct (handleDelete_twice_counts_twice (fun _ => true) "rec-7" two_rows
              eq_refl) as (_ & _ & H).
  exact H.
Defined.

(** ** Loading the logs page *)

(** X6. [loadHistory] never invents or reorders rows.  When the request
    succeeds it displays the response's items, all of them when no search
    term is set and otherwise exactly those, in the response's order, whose
    lower-cased text holds the lower-cased term or whose id holds the term
    ([toLowerCase] being the browser's); with a paginated response the
    total is the response's and the error is cleared, and with a response
    that lacks the pagination the total is kept and the error message is
    set.  When the request is rejected, list and total are kept and the
    error message is set.  Page, search term and sentiment filter are never
    changed, and loading is over. *)
Theorem loadHistory_displays_from_response
    (toLowerCase : string -> string)
    (http : ApiService.HistoryEndpoint) (st : LogsPage.State) :
  let term := LogsPage.searchTerm st in
  let st' := LogsPage.loadHistory toLowerCase http st in
  match ApiService.getHistory http (Some (LogsPage.request st)) with
  | Some response =>
      LogsPage.history st' =
        List.filter
          (fun item =>
             if decide (term = "") then true
             else Js.includes (toLowerCase (text item)) (toLowerCase term)
                  || Js.includes (id item) term)
          (items response)
      /\ LogsPage.history st' `sublist_of` items response
      /\ (term = "" -> LogsPage.history st' = items response)
      /\ (forall item,
            In item (LogsPage.history st')
            <-> In item (items response)
                /\ (term = ""
                    \/ (exists before after,
                          toLowerCase (text item)
                          = before +:+ toLowerCase term +:+ after)
                    \/ (exists before after,
                          id item = before +:+ term +:+ after)))
      /\ (forall p, pagination response = Some p ->
            LogsPage.total st' = Types.total p /\ LogsPage.error st' = None)
      /\ (pagination response = None ->
            LogsPage.total st' = LogsPage.total st
            /\ LogsPage.error st' = Some "Falha ao carregar histórico")
  | None =>
      LogsPage.history st' = LogsPage.history st
      /\ LogsPage.total st' = LogsPage.total st
      /\ LogsPage.error st' = Some "Falha ao carregar histórico"
  end
  /\ LogsPage.page st' = LogsPage.page st
  /\ LogsPage.searchTerm st' = LogsPage.searchTerm st
  /\ LogsPage.filterSentiment st' = LogsPage.filterSentiment st
  /\ LogsPage.loading st' = false.
Proof.
  intros term st'. subst st'. unfold LogsPage.loadHistory.
  destruct (ApiService.getHistory http (Some (LogsPage.request st)))
    as [response|]; [|by repeat split].
  fold term.
  destruct (shown_exactly toLowerCase term (items response))
    as (Heq & Hsub & Hin).
  assert (Hall : term = "" ->
                 LogsPage.shown toLowerCase term (items response)
                 = items response).
  { intros ->. reflexivity. }
  destruct (pagination response) as [p|]; simpl.
  - split; [|by repeat split].
    split; [exact Heq|]. split; [exact Hsub|]. split; [exact Hall|].
    split; [exact Hin|]. split; [|discriminate].
    intros p' [= <-]. by split.
  - split; [|by repeat split].
    split; [exact Heq|]. split; [exact Hsub|]. split; [exact Hall|].
    split; [exact Hin|]. split; [intros p' [=]|]. by intros _.
Qed.

(** ** Turning pages *)



(** ** The CSV export *)

Lemma read_escaped (text rest : string) :
  no_quote_ahead rest ->
  LogsExport.read_quoted_body
    (LogsExport.escape_quotes text +:+ String LogsExport.dquote rest)
  = Some (text, rest).
Proof.
  intros Hrest. induction text as [|c text IH].
  - cbn [LogsExport.escape_quotes]. rewrite string_app_nil.
    cbn [LogsExport.read_quoted_body]. rewrite Ascii.eqb_refl.
    destruct rest as [|c' rest']; [reflexivity|].
    simpl in Hrest. by rewrite Hrest.
  - cbn [LogsExport.escape_quotes].
    destruct (Ascii.eqb_spec c LogsExport.dquote) as [->|Hc].
    + rewrite !string_app_cons. cbn [LogsExport.read_quoted_body].
      rewrite !Ascii.eqb_refl. by rewrite IH.
    + rewrite string_app_cons. cbn [LogsExport.read_quoted_body].
      apply Ascii.eqb_neq in Hc. rewrite Hc. by rewrite IH.
Qed.

(** X8. In every line of the CSV export the text cell comes right after
    the id and a comma, and it is a well-formed quoted cell: read by the
    CSV quoting rule (a doubled quote is a quote, a single one closes the
    cell) it gives back the item's text, quotes, commas and line breaks
    included, and reading stops at the comma before the sentiment. *)
Theorem csv_text_cell_reads_back (show_number : float -> string)
    (item : HistoryItem) :
  exists tail,
    String.concat "," (LogsExport.row_cells show_number item)
    = Types.id item +:+ "," +:+ LogsExport.text_cell (Types.text item) +:+ tail
    /\ tail = "," +:+ sentiment item +:+ "," +:+ show_number (confidence item)
              +:+ "," +:+ language item +:+ "," +:+ created_at item
    /\ LogsExport.read_quoted (LogsExport.text_cell (Types.text item) +:+ tail)
       = Some (Types.text item, tail).
Proof.
  eexists. split; [reflexivity|]. split; [reflexivity|].
  unfold LogsExport.text_cell, LogsExport.read_quoted.
  rewrite string_app_cons, Ascii.eqb_refl, string_app_assoc.
  rewrite string_app_cons, string_app_nil.
  by apply read_escaped.
Qed.

(** ** The sentiment chart *)

Section ChartProofs.
Import DashboardCharts.
Local Open Scope list_scope.
Local Open Scope nat_scope.

Lemma bump_sum (l : Sentiment) (entries : list (Sentiment * nat)) :
  sum_list (snd <$> bump l entries) = S (sum_list (snd <$> entries)).
Proof.
  induction entries as [|[k n] rest IH]; csimpl; [reflexivity|].
  destruct (bool_decide (k = l)); csimpl; [reflexivity|].
  rewrite IH. lia.
Qed.

Lemma bump_held_count (l k : Sentiment) (entries : list (Sentiment * nat)) :
  held_count k (bump l entries)
  = held_count k entries + (if bool_decide (l = k) then 1 else 0).
Proof.
  unfold held_count.
  induction entries as [|[k' n] rest IH]; csimpl.
  - destruct (bool_decide (l = k)); lia.
  - destruct (decide (k' = l)) as [->|Hne].
    + rewrite bool_decide_eq_true_2 by done. csimpl.
      destruct (bool_decide (l = k)); lia.
    + rewrite (bool_decide_eq_false_2 (k' = l)) by done. csimpl.
      rewrite IH. lia.
Qed.

Lemma bump_keys (l : Sentiment) (entries : list (Sentiment * nat)) :
  fst <$> bump l entries
  = if bool_decide (l ∈ fst <$> entries) then fst <$> entries
    else (fst <$> entries) ++ [l].
Proof.
  induction entries as [|[k n] rest IH]; csimpl; [reflexivity|].
  destruct (decide (k = l)) as [->|Hne].
  - rewrite bool_decide_eq_true_2 by done. csimpl.
    rewrite bool_decide_eq_true_2; [reflexivity|by left].
  - rewrite (bool_decide_eq_false_2 (k = l)) by done. csimpl.
    rewrite IH. destruct (decide (l ∈ fst <$> rest)) as [Hin|Hnin].
    + rewrite !bool_decide_eq_true_2; [reflexivity|by right|done].
    + rewrite !bool_decide_eq_false_2; [reflexivity| |done].
      intros [?|?]%elem_of_cons; congruence.
Qed.

Lemma held_count_absent (k : Sentiment) (entries : list (Sentiment * nat)) :
  k ∉ fst <$> entries -> held_count k entries = 0.
Proof.
  unfold held_count. induction entries as [|[k' n] rest IH]; csimpl;
    [reflexivity|].
  intros Hnin. apply not_elem_of_cons in Hnin as [Hne Hnin].
  rewrite bool_decide_eq_false_2 by congruence. by apply IH.
Qed.

Lemma held_count_entry (k : Sentiment) (n : nat)
    (entries : list (Sentiment * nat)) :
  NoDup (fst <$> entries) -> (k, n) ∈ entries -> held_count k entries = n.
Proof.
  unfold held_count. induction entries as [|[k' n'] rest IH]; csimpl.
  - by intros _ ?%elem_of_nil.
  - intros [Hnin Hnd]%NoDup_cons [Heq|Hin]%elem_of_cons.
    + injection Heq as <- <-. rewrite bool_decide_eq_true_2 by done.
      fold (held_count k rest). rewrite held_count_absent by done. lia.
    + destruct (decide (k' = k)) as [->|Hne].
      * exfalso. apply Hnin. apply list_elem_of_fmap. by exists (k, n).
      * rewrite bool_decide_eq_false_2 by done. by apply IH.
Qed.

Lemma sentimentEntries_snoc (labels : list Sentiment) (l : Sentiment) :
  sentimentEntries (labels ++ [l]) = bump l (sentimentEntries labels).
Proof. unfold sentimentEntries. by rewrite fold_left_app. Qed.

Lemma times_seen_snoc (k : Sentiment) (labels : list Sentiment)
    (l : Sentiment) :
  times_seen k (labels ++ [l])
  = times_seen k labels + (if bool_decide (l = k) then 1 else 0).
Proof.
  unfold times_seen. rewrite List.filter_app, length_app. csimpl.
  by destruct (bool_decide (l = k)).
Qed.

Lemma sentimentEntries_facts (labels : list Sentiment) :
  sum_list (snd <$> sentimentEntries labels) = length labels
  /\ fst <$> sentimentEntries labels
     = reverse (remove_dups (reverse labels))
  /\ forall k, held_count k (sentimentEntries labels) = times_seen k labels.
Proof.
  induction labels as [|l labels (Hsum & Hkeys & Hcount)] using rev_ind.
  - split; [reflexivity|]. split; [reflexivity|done].
  - rewrite sentimentEntries_snoc. split; [|split].
    + rewrite bump_sum, Hsum, length_app. csimpl. lia.
    + rewrite bump_keys, Hkeys, reverse_app. csimpl.
      destruct (decide_rel elem_of l (reverse labels)) as [Hin|Hnin].
      * rewrite bool_decide_eq_true_2; [done|].
        by rewrite elem_of_reverse, elem_of_remove_dups.
      * rewrite bool_decide_eq_false_2, reverse_cons; [done|].
        by rewrite elem_of_reverse, elem_of_remove_dups.
    + intros k. by rewrite bump_held_count, Hcount, times_seen_snoc.
Qed.

(** On items that carry the labels [labels], the items with a label's
    spelling are as many as the label's occurrences. *)
Lemma occurrences_typed (l : Sentiment) (its : list HistoryItem)
    (labels : list Sentiment) :
  sentiment <$> its = label <$> labels ->
  occurrences (label l) its = times_seen l labels.
Proof.
  unfold occurrences, times_seen. revert labels.
  induction its as [|it its IH]; intros [|x labels] Heq;
    try discriminate; [reflexivity|].
  csimpl in Heq. injection Heq as Hx Hrest. cbn [List.filter].
  rewrite Hx. specialize (IH labels Hrest).
  destruct (decide (x = l)) as [->|Hne].
  - rewrite String.eqb_refl, bool_decide_eq_true_2 by done.
    cbn [length]. by rewrite IH.
  - rewrite bool_decide_eq_false_2 by done.
    destruct (String.eqb_spec (label x) (label l)) as [Hl|_]; [|exact IH].
    exfalso. apply Hne. by destruct x, l.
Qed.

End ChartProofs.

(** X9. On a page whose items carry labels of the type [Sentiment], the
    sentiment chart counts every item exactly once: the bars' values add
    up to the number of items; there is one bar for each label that
    occurs, in the order of first occurrence, named by the upper-cased
    label and filled with the label's colour; and a bar's value is the
    number of items carrying its label, the same count the fallback
    statistics read for that label. *)
Theorem sentiment_chart_counts_every_item (its : list HistoryItem)
    (labels : list Sentiment) :
  sentiment <$> its = label <$> labels ->
  let entries := DashboardCharts.sentimentEntries labels in
  let bars := DashboardCharts.sentimentData labels in
  sum_list (DashboardCharts.bar_value <$> bars) = length its
  /\ fst <$> entries = reverse (remove_dups (reverse labels))
  /\ NoDup (fst <$> entries)
  /\ (forall l, l ∈ fst <$> entries <-> l ∈ labels)
  /\ (forall (l : Sentiment) (n : nat),
        (l, n) ∈ entries ->
        (0 < n)%nat
        /\ n = occurrences (label l) its
        /\ n = default 0%nat (DashboardPage.sentimentCount its !! label l))
  /\ (forall i b,
        bars !! i = Some b <->
        exists l n,
          entries !! i = Some (l, n)
          /\ b = {| DashboardCharts.bar_name :=
                      match l with
                      | positive => "POSITIVE"
                      | negative => "NEGATIVE"
                      | neutral => "NEUTRAL"
                      end;
                    DashboardCharts.bar_value := n;
                    DashboardCharts.bar_fill :=
                      match l with
                      | positive => "#10b981"
                      | negative => "#ef4444"
                      | neutral => "#6b7280"
                      end |}).
Proof.
  intros Htyped entries bars.
  destruct (sentimentEntries_facts labels) as (Hsum & Hkeys & Hcount).
  fold entries in Hsum, Hkeys, Hcount.
  assert (Hlen : length its = length labels).
  { rewrite <- (length_fmap sentiment its), Htyped. apply length_fmap. }
  assert (Hnd : NoDup (fst <$> entries)).
  { rewrite Hkeys, reverse_Permutation. apply NoDup_remove_dups. }
  assert (Hmem : forall l, l ∈ fst <$> entries <-> l ∈ labels).
  { intros l.
    by rewrite Hkeys, elem_of_reverse, elem_of_remove_dups, elem_of_reverse. }
  split; [|split; [exact Hkeys|split; [exact Hnd|split; [exact Hmem|split]]]].
  - subst bars. unfold DashboardCharts.sentimentData. fold entries.
    rewrite Hlen, <- Hsum. f_equal. rewrite <- list_fmap_compose.
    reflexivity.
  - intros l n Hin.
    assert (Hn : n = times_seen l labels).
    { by rewrite <- Hcount, (held_count_entry l n _ Hnd Hin). }
    assert (Hl : l ∈ labels).
    { apply Hmem, list_elem_of_fmap. by exists (l, n). }
    rewrite sentimentCount_occurrences,
      (occurrences_typed l its labels Htyped), <- Hn.
    split; [|by split]. rewrite Hn. unfold times_seen.
    apply list_elem_of_In in Hl.
    assert (Hf : In l (List.filter (fun x => bool_decide (x = l)) labels)).
    { apply List.filter_In. split; [exact Hl|by apply bool_decide_eq_true_2]. }
    destruct (List.filter _ labels); [done|simpl; lia].
  - intros i b. subst bars. unfold DashboardCharts.sentimentData.
    fold entries. change (map ?f ?x) with (f <$> x).
    rewrite list_lookup_fmap. destruct (entries !! i) as [[l n]|]; csimpl.
    + split.
      * intros [= <-]. exists l, n. split; [done|]. by destruct l.
      * intros (l' & n' & [= <- <-] & ->). by destruct l.
    + split; [discriminate|]. by intros (l' & n' & [=] & _).
Qed.

Lemma sentiment_chart_counts_every_item_witness :
  DashboardCharts.sentimentEntries [positive; negative; positive]
  = [(positive, 2%nat); (negative, 1%nat)]
  /\ sum_list (DashboardCharts.bar_value
                 <$> DashboardCharts.sentimentData
                       [positive; negative; positive]) = 3%nat.
Proof.
  split; [reflexivity|].
  destruct (sentiment_chart_counts_every_item (items scenario_page)
              [positive; negative; positive] eq_refl) as (H & _).
  exact H.
Defined.

(** ** The fallback statistics *)

(** X10. The statistics computed on the fallback path never show zero
    analyses: the total is the response's pagination total when that is
    present and not zero, and the number of items on the page otherwise;
    they carry the period 7d and no language or trend data. *)
Theorem fallback_total_not_zero (prev : option StatsResponse)
    (h : HistoryResponse HistoryItem) :
  items h <> [] ->
  exists st,
    DashboardPage.loadData_stats prev (Some h) None = Some st
    /\ total_analyses st <> 0
    /\ (forall p, pagination h = Some p -> Types.total p <> 0 ->
          total_analyses st = Types.total p)
    /\ ((pagination h = None
         \/ exists p, pagination h = Some p /\ Types.total p = 0) ->
        total_analyses st = Z.of_nat (length (items h)))
    /\ period st = "7d"
    /\ top_languages st = []
    /\ sentiment_trend st = [].
Proof.
  intros Hne. exists (DashboardPage.fallback_stats h).
  split; [by apply fallback_taken|]. simpl.
  unfold DashboardPage.totalAnalyses.
  assert (Z.of_nat (length (items h)) <> 0).
  { destruct (items h); [done|simpl; lia]. }
  destruct (pagination h) as [p|].
  - destruct (Z.eqb_spec (Types.total p) 0) as [E|E].
    + repeat split; try done. by intros p' [= <-].
    + repeat split; try done.
      * by intros p' [= <-].
      * intros [[=]|(p' & [= <-] & ?)]. done.
  - repeat split; done.
Qed.

Lemma fallback_total_not_zero_witness :
  exists st,
    DashboardPage.loadData_stats None (Some scenario_page) None = Some st
    /\ total_analyses st = 3.
Proof.
  destruct (fallback_total_not_zero None scenario_page)
    as (st & Hst & _ & _ & Hlen & _); [discriminate|].
  exists st. split; [exact Hst|]. apply Hlen. by left.
Defined.

(** ** The confidence timeline *)

(** X11. The confidence timeline shows the first twelve items of the
    response, at most, oldest of them first when the response is newest
    first: point [i] is built from the item at position [n - 1 - i], with
    [n] the number of points, and every point stands for one request. *)
Theorem timeline_reverses_first_twelve
    (time_of_day : string -> string) (Math_round : float -> float)
    (its : list HistoryItem) :
  let points := DashboardCharts.timePoints time_of_day Math_round its in
  let n := Nat.min 12 (length its) in
  length points = n
  /\ (forall i : nat, (i < n)%nat ->
        exists item,
          its !! (n - 1 - i)%nat = Some item
          /\ points !! i
             = Some {| DashboardCharts.point_time :=
                         time_of_day (created_at item);
                       DashboardCharts.point_requests := 1;
                       DashboardCharts.point_confidence :=
                         Math_round
                           (PrimFloat.mul (confidence item) 100%float) |})
  /\ Forall (fun p => DashboardCharts.point_requests p = 1%nat) points.
Proof.
  intros points n. subst points n. unfold DashboardCharts.timePoints.
  rewrite rev_alt. fold (reverse (take 12 its)).
  split; [by rewrite length_map, length_reverse, length_take|]. split.
  - intros i Hi.
    assert (Hlen : length (take 12 its) = Nat.min 12 (length its))
      by apply length_take.
    destruct (lookup_lt_is_Some_2 its (Nat.min 12 (length its) - 1 - i))
      as [item Hitem]; [lia|].
    exists item. split; [exact Hitem|].
    rewrite list_lookup_fmap, reverse_lookup by lia.
    rewrite Hlen, lookup_take_lt by lia.
    replace (Nat.min 12 (length its) - S i)%nat
      with (Nat.min 12 (length its) - 1 - i)%nat by lia.
    by rewrite Hitem.
  - apply List.Forall_forall. intros p Hp.
    apply in_map_iff in Hp as (item & <- & _). reflexivity.
Qed.

(** ** Editing the examples *)

Section ExampleProofs.
Import SettingsPage.
Local Open Scope list_scope.
Local Open Scope nat_scope.

Lemma imap_is_insert (index : nat) (value : string) (l : list string) :
  imap (fun i ex => if Nat.eqb i index then value else ex) l
  = <[index := value]> l.
Proof.
  apply list_eq. intros i. rewrite list_lookup_imap.
  destruct (Nat.eqb_spec i index) as [->|Hne].
  - destruct (l !! index) as [x|] eqn:E; simpl.
    + by rewrite list_lookup_insert_eq by (by eapply lookup_lt_Some).
    + apply lookup_ge_None in E. symmetry. apply lookup_ge_None.
      by rewrite length_insert.
  - rewrite list_lookup_insert_ne by done.
    destruct (l !! i); reflexivity.
Qed.

Lemma filter_from_ext {A} (f g : nat -> bool) (i : nat) (l : list A) :
  (forall j, i <= j -> f j = g j) -> filter_from f i l = filter_from g i l.
Proof.
  revert i. induction l as [|x l IH]; intros i Hfg; simpl; [reflexivity|].
  rewrite (Hfg i) by lia. rewrite (IH (S i)); [reflexivity|].
  intros j Hj. apply Hfg. lia.
Qed.

Lemma filter_from_all {A} (f : nat -> bool) (i : nat) (l : list A) :
  (forall j, i <= j -> f j = true) -> filter_from f i l = l.
Proof.
  revert i. induction l as [|x l IH]; intros i Hf; simpl; [reflexivity|].
  rewrite (Hf i) by lia. rewrite IH; [reflexivity|].
  intros j Hj. apply Hf. lia.
Qed.

Lemma filter_from_is_delete {A} (index off : nat) (l : list A) :
  filter_from (fun i => negb (Nat.eqb i (index + off))) off l
  = base.delete index l.
Proof.
  revert index off. induction l as [|x l IH]; intros index off; simpl;
    [by destruct index|].
  destruct index as [|j]; simpl.
  - rewrite Nat.eqb_refl. simpl. apply filter_from_all.
    intros j Hj. apply negb_true_iff, Nat.eqb_neq. lia.
  - destruct (Nat.eqb_spec off (S (j + off))); [lia|]. simpl. f_equal.
    rewrite <- (IH j (S off)). apply filter_from_ext.
    intros i _. do 2 f_equal. lia.
Qed.

Lemma list_delete_past_end {A} (index : nat) (l : list A) :
  length l <= index -> base.delete index l = l.
Proof.
  intros Hout. rewrite delete_take_drop, take_ge, drop_ge by lia.
  apply app_nil_r.
Qed.

Lemma remove_index_is_delete {A} (index : nat) (l : list A) :
  filter_from (fun i => negb (Nat.eqb i index)) 0 l = base.delete index l.
Proof.
  rewrite <- (filter_from_is_delete index 0 l). apply filter_from_ext.
  intros i _. by rewrite Nat.add_0_r.
Qed.

Lemma of_with_lang (lang : Lang) (l : list string) (ex : Examples) :
  of_lang lang (with_lang lang l ex) = l.
Proof. by destruct lang. Qed.

Lemma of_with_other (lang other : Lang) (l : list string) (ex : Examples) :
  other <> lang -> of_lang other (with_lang lang l ex) = of_lang other ex.
Proof. by destruct lang, other. Qed.

Lemma with_lang_same (lang : Lang) (ex : Examples) :
  with_lang lang (of_lang lang ex) ex = ex.
Proof. by destruct lang, ex. Qed.

Lemma edit_keeps_filled (e : Edit) (lang : Lang) (st : State) :
  of_lang lang (examples st) <> [] ->
  of_lang lang (examples (edit e st)) <> [].
Proof.
  intros Hne.
  assert (Hlen : 0 < length (of_lang lang (examples st))).
  { destruct (of_lang lang (examples st)); [done|simpl; lia]. }
  assert (Hgoal : 0 < length (of_lang lang (examples (edit e st))));
    [|by destruct (of_lang lang (examples (edit e st))); [simpl in Hgoal; lia|]].
  destruct e as [l' index value|l'|l' index]; simpl.
  - destruct (decide (lang = l')) as [<-|Hother].
    + by rewrite of_with_lang, length_imap.
    + by rewrite of_with_other.
  - destruct (decide (lang = l')) as [<-|Hother].
    + rewrite of_with_lang, length_app. simpl. lia.
    + by rewrite of_with_other.
  - unfold removeExample.
    destruct (Nat.leb_spec (length (of_lang l' (examples st))) 1); [done|].
    simpl. destruct (decide (lang = l')) as [<-|Hother].
    + rewrite of_with_lang, remove_index_is_delete.
      destruct (decide (index < length (of_lang lang (examples st))))
        as [Hin|Hout].
      * rewrite length_delete by (by apply lookup_lt_is_Some_2). lia.
      * rewrite list_delete_past_end by lia. lia.
    + by rewrite of_with_other.
Qed.

End ExampleProofs.

(** X12. [removeExample] leaves the state alone when the language has one
    example or none.  Otherwise it removes exactly the example at the
    index, keeping the others in order (an index past the end removes
    nothing), marks the examples as modified, and does not touch the other
    language or [localStorage]. *)
Theorem removeExample_removes_the_index (lang other : SettingsPage.Lang)
    (index : nat) (st : SettingsPage.State) :
  let l := SettingsPage.of_lang lang (SettingsPage.examples st) in
  let st' := SettingsPage.removeExample lang index st in
  ((length l <= 1)%nat -> st' = st)
  /\ ((1 < length l)%nat ->
      SettingsPage.of_lang lang (SettingsPage.examples st')
      = base.delete index l
      /\ SettingsPage.examplesModified st' = true
      /\ ((index < length l)%nat ->
          length (SettingsPage.of_lang lang (SettingsPage.examples st'))
          = (length l - 1)%nat)
      /\ ((length l <= index)%nat ->
          SettingsPage.examples st' = SettingsPage.examples st))
  /\ (other <> lang ->
      SettingsPage.of_lang other (SettingsPage.examples st')
      = SettingsPage.of_lang other (SettingsPage.examples st))
  /\ SettingsPage.localStorage st' = SettingsPage.localStorage st.
Proof.
  intros l st'. subst l st'. unfold SettingsPage.removeExample.
  destruct (Nat.leb_spec
              (length (SettingsPage.of_lang lang (SettingsPage.examples st))) 1)
    as [Hle|Hgt]; simpl.
  - split; [done|]. split; [lia|]. by split.
  - split; [lia|]. rewrite of_with_lang, remove_index_is_delete.
    split; [|split; [intros; by apply of_with_other|reflexivity]].
    intros _. split; [reflexivity|]. split; [reflexivity|]. split.
    + intros Hin. by rewrite length_delete by (by apply lookup_lt_is_Some_2).
    + intros Hout. rewrite list_delete_past_end by done. apply with_lang_same.
Qed.

Lemma removeExample_removes_the_index_witness :
  SettingsPage.ex_en
    (SettingsPage.examples
       (SettingsPage.removeExample SettingsPage.en 1
          (SettingsPage.mount ∅)))
  = [ "I am very happy with this service!";
      "The product arrived on time as expected.";
      "Amazing! Exceeded my expectations.";
      "Unfortunately it did not work as expected." ].
Proof.
  destruct (removeExample_removes_the_index SettingsPage.en SettingsPage.pt 1
              (SettingsPage.mount ∅)) as (_ & H & _).
  destruct H as (H & _); [simpl; lia|]. exact H.
Defined.

(** X13. [updateExample] replaces the example at the index and nothing
    else: the language keeps its number of examples, the other positions
    and the other language are as before.  An index past the end changes
    no example, yet the examples are marked as modified all the same. *)
Theorem updateExample_replaces_the_index (lang other : SettingsPage.Lang)
    (index : nat) (value : string) (st : SettingsPage.State) :
  let l := SettingsPage.of_lang lang (SettingsPage.examples st) in
  let st' := SettingsPage.updateExample lang index value st in
  let l' := SettingsPage.of_lang lang (SettingsPage.examples st') in
  l' = <[index := value]> l
  /\ length l' = length l
  /\ ((index < length l)%nat -> l' !! index = Some value)
  /\ (forall j : nat, j <> index -> l' !! j = l !! j)
  /\ ((length l <= index)%nat ->
      SettingsPage.examples st' = SettingsPage.examples st)
  /\ SettingsPage.examplesModified st' = true
  /\ (other <> lang ->
      SettingsPage.of_lang other (SettingsPage.examples st')
      = SettingsPage.of_lang other (SettingsPage.examples st)).
Proof.
  intros l st' l'. subst l st' l'. unfold SettingsPage.updateExample. simpl.
  rewrite of_with_lang, imap_is_insert.
  split; [reflexivity|]. split; [apply length_insert|].
  split; [intros; by apply list_lookup_insert_eq|].
  split; [intros; by apply list_lookup_insert_ne|].
  split; [|split; [reflexivity|intros; by apply of_with_other]].
  intros Hout. rewrite list_insert_ge by done. apply with_lang_same.
Qed.

Lemma updateExample_replaces_the_index_witness :
  SettingsPage.ex_pt
    (SettingsPage.examples
       (SettingsPage.updateExample SettingsPage.pt 4 "Muito bom!"
          (SettingsPage.mount ∅))) !! 4%nat
  = Some "Muito bom!".
Proof.
  destruct (updateExample_replaces_the_index SettingsPage.pt SettingsPage.en
              4 "Muito bom!" (SettingsPage.mount ∅)) as (_ & _ & H & _).
  apply H. simpl. lia.
Defined.

(** X14. Adding an example and then removing the one just added gives the
    examples back, for a language that had at least one example; the added
    example is the empty string, placed last. *)
Theorem add_then_remove_example (lang : SettingsPage.Lang)
    (st : SettingsPage.State) :
  let l := SettingsPage.of_lang lang (SettingsPage.examples st) in
  let added := SettingsPage.addExample lang st in
  l <> [] ->
  SettingsPage.of_lang lang (SettingsPage.examples added)
  = (l ++ [EmptyString])%list
  /\ SettingsPage.examples
       (SettingsPage.removeExample lang (length l) added)
     = SettingsPage.examples st.
Proof.
  intros l added Hne. subst l added.
  unfold SettingsPage.addExample, SettingsPage.removeExample. simpl.
  rewrite !of_with_lang. split; [reflexivity|].
  rewrite length_app. simpl.
  destruct (Nat.leb_spec
              (length (SettingsPage.of_lang lang (SettingsPage.examples st)) + 1)
              1) as [Hle|_].
  { destruct (SettingsPage.of_lang lang (SettingsPage.examples st));
      [done|simpl in Hle; lia]. }
  simpl. rewrite remove_index_is_delete.
  replace (base.delete
             (length (SettingsPage.of_lang lang (SettingsPage.examples st)))
             (SettingsPage.of_lang lang (SettingsPage.examples st)
              ++ [EmptyString])%list)
    with (SettingsPage.of_lang lang (SettingsPage.examples st)).
  - destruct lang, (SettingsPage.examples st); reflexivity.
  - by rewrite delete_middle, app_nil_r.
Qed.

Lemma add_then_remove_example_witness :
  SettingsPage.examples
    (SettingsPage.removeExample SettingsPage.pt 5
       (SettingsPage.addExample SettingsPage.pt (SettingsPage.mount ∅)))
  = SettingsPage.DEFAULT_EXAMPLES.
Proof.
  destruct (add_then_remove_example SettingsPage.pt (SettingsPage.mount ∅))
    as [_ H]; [discriminate|exact H].
Defined.

(** X15. No sequence of edits in the examples card empties a language:
    a language that has an example before the edits has one after them,
    because the last example cannot be removed. *)
Theorem edits_never_empty_a_language (es : list SettingsPage.Edit)
    (lang : SettingsPage.Lang) (st : SettingsPage.State) :
  SettingsPage.of_lang lang (SettingsPage.examples st) <> [] ->
  SettingsPage.of_lang lang
    (SettingsPage.examples (SettingsPage.edits es st)) <> [].
Proof.
  revert st. induction es as [|e es IH]; intros st Hne; [exact Hne|].
  simpl. apply IH. by apply edit_keeps_filled.
Qed.

Lemma edits_never_empty_a_language_witness :
  SettingsPage.of_lang SettingsPage.en
    (SettingsPage.examples
       (SettingsPage.edits
          [SettingsPage.Remove SettingsPage.en 0;
           SettingsPage.Remove SettingsPage.en 0;
           SettingsPage.Remove SettingsPage.en 0;
           SettingsPage.Remove SettingsPage.en 0;
           SettingsPage.Remove SettingsPage.en 0;
           SettingsPage.Remove SettingsPage.en 0]
          (SettingsPage.mount ∅))) <> [].
Proof.
  apply (edits_never_empty_a_language _ SettingsPage.en (SettingsPage.mount ∅)).
  discriminate.
Defined.

(** ** Saving and loading the examples *)

(** X16. What the settings page saves is what the pages load: when the
    saved text is not empty and parses back to the examples, a settings
    page mounted afterwards shows the saved examples, unmodified, and so
    does the analysis page.  After a reset the saved text is gone and both
    pages show the default examples. *)
Theorem saved_examples_are_loaded
    (stringify : SettingsPage.Examples -> string)
    (parse : string -> SettingsPage.Parsed) (st : SettingsPage.State) :
  stringify (SettingsPage.examples st) <> "" ->
  parse (stringify (SettingsPage.examples st))
    = SettingsPage.Shaped (SettingsPage.examples st) ->
  let saved := SettingsPage.saveExamples stringify st in
  let reset := SettingsPage.resetExamples saved in
  SettingsPage.examplesModified saved = false
  /\ SettingsPage.loadExamples parse
       (SettingsPage.mount (SettingsPage.localStorage saved))
     = {| SettingsPage.examples := SettingsPage.examples st;
          SettingsPage.examplesModified := false;
          SettingsPage.localStorage := SettingsPage.localStorage saved |}
  /\ AnalysisPage.examples
       (AnalysisPage.loadSavedExamples parse
          (SettingsPage.localStorage saved) AnalysisPage.initial)
     = SettingsPage.examples st
  /\ SettingsPage.loadExamples parse
       (SettingsPage.mount (SettingsPage.localStorage reset))
     = SettingsPage.mount (SettingsPage.localStorage reset)
  /\ AnalysisPage.loadSavedExamples parse
       (SettingsPage.localStorage reset) AnalysisPage.initial
     = AnalysisPage.initial.
Proof.
  intros Hfilled Hparse saved reset. subst saved reset.
  unfold SettingsPage.loadExamples, AnalysisPage.loadSavedExamples. simpl.
  rewrite !lookup_insert_eq, !lookup_delete_eq, Hparse.
  destruct (stringify (SettingsPage.examples st)) as [|c s]; [done|].
  by repeat split.
Qed.

Lemma saved_examples_are_loaded_witness :
  AnalysisPage.examples
    (AnalysisPage.loadSavedExamples toy_parse
       (SettingsPage.localStorage
          (SettingsPage.saveExamples toy_stringify edited_examples))
       AnalysisPage.initial)
  = SettingsPage.examples edited_examples.
Proof.
  apply (saved_examples_are_loaded toy_stringify toy_parse edited_examples);
    [discriminate|reflexivity].
Defined.

(** ** Analysing a batch *)

Lemma imap_originalText (texts : list string)
    (served : list AnalysisPage.AnalysisResponse) (i : nat) :
  imap (fun idx r => {| AnalysisPage.response := r;
                        AnalysisPage.originalText := texts !! idx |})
       served !! i
  = (fun r => {| AnalysisPage.response := r;
                 AnalysisPage.originalText := texts !! i |}) <$> served !! i.
Proof. by rewrite list_lookup_imap. Qed.

(** X17. [handleAnalyzeBatch] sends to the service exactly the inputs
    that are not blank (those of which [trim], the browser's, leaves
    something), each as often as it occurs and in the order of the
    inputs, and nothing else decides the outcome; when all inputs are
    blank it does nothing.  One result is shown per result served, result
    [i] paired with the [i]-th text sent (with none past the end of the
    texts), so when the service answers with one result per text every
    text is paired with its own result.  A rejected request keeps the
    earlier results and sets the error message.  The inputs are never
    changed. *)
Theorem batch_pairs_results_with_sent_texts
    (trim : string -> string)
    (http : AnalysisPage.BatchEndpoint) (st : AnalysisPage.State) :
  let texts := List.filter (fun t => negb (String.eqb (trim t) ""))
                           (AnalysisPage.batchTexts st) in
  let st' := AnalysisPage.handleAnalyzeBatch trim http st in
  AnalysisPage.validTexts trim st = texts
  /\ (forall t, In t texts
                <-> In t (AnalysisPage.batchTexts st) /\ trim t <> "")
  /\ texts `sublist_of` AnalysisPage.batchTexts st
  /\ (forall other : AnalysisPage.BatchEndpoint,
        other texts = http texts ->
        AnalysisPage.handleAnalyzeBatch trim other st = st')
  /\ (texts = [] -> st' = st)
  /\ (texts <> [] ->
      match http texts with
      | Some served =>
          length (AnalysisPage.results st') = length served
          /\ (forall i : nat,
                AnalysisPage.results st' !! i
                = (fun r => {| AnalysisPage.response := r;
                               AnalysisPage.originalText := texts !! i |})
                    <$> served !! i)
          /\ (length served = length texts ->
              AnalysisPage.originalText <$> AnalysisPage.results st'
              = Some <$> texts)
          /\ AnalysisPage.error st' = None
      | None =>
          AnalysisPage.results st' = AnalysisPage.results st
          /\ AnalysisPage.error st'
             = Some "Falha ao analisar em lote. Tente novamente."
      end)
  /\ AnalysisPage.batchTexts st' = AnalysisPage.batchTexts st.
Proof.
  intros texts st'. subst st'.
  split; [reflexivity|]. split.
  { intros t. subst texts.
    rewrite List.filter_In, negb_true_iff, String.eqb_neq. reflexivity. }
  split; [apply filter_sublist|].
  unfold AnalysisPage.handleAnalyzeBatch, AnalysisPage.validTexts,
    AnalysisPage.blank. fold texts.
  split.
  { intros other Hsame. destruct texts; [reflexivity|]. by rewrite Hsame. }
  destruct texts as [|t texts'] eqn:Htexts; [by repeat split|].
  split; [discriminate|].
  remember (t :: texts') as sent eqn:Hsent. clear Hsent.
  destruct (http sent) as [served|]; cbn [AnalysisPage.results
    AnalysisPage.error AnalysisPage.batchTexts]; [|by repeat split].
  split; [|reflexivity]. intros _.
  split; [apply length_imap|]. split; [intros i; apply imap_originalText|].
  split; [|reflexivity]. intros Hlen.
  apply list_eq. intros i. rewrite !list_lookup_fmap, imap_originalText.
  destruct (served !! i) as [r|] eqn:Hr.
  - apply lookup_lt_Some in Hr. rewrite Hlen in Hr.
    by destruct (lookup_lt_is_Some_2 sent i Hr) as [x ->].
  - apply lookup_ge_None in Hr. rewrite Hlen in Hr.
    by rewrite (proj2 (lookup_ge_None sent i) Hr).
Qed.

Lemma batch_pairs_results_with_sent_texts_witness :
  AnalysisPage.originalText
    <$> AnalysisPage.results
          (AnalysisPage.handleAnalyzeBatch ascii_trim echo_service
             two_texts_and_a_blank)
  = [Some "so good"; Some "so bad"].
Proof.
  destruct (batch_pairs_results_with_sent_texts ascii_trim echo_service
              two_texts_and_a_blank) as (_ & _ & _ & _ & _ & H & _).
  apply H; [discriminate|reflexivity].
Defined.

(** X18. [loadExample] in batch mode keeps exactly the inputs that are
    not blank (those of which [trim], the browser's, leaves something),
    in their order, and puts the example after them: if the example is
    not blank no blank input is left, so all the inputs are sent by the
    next analysis.  In single mode it replaces the text and leaves the
    batch inputs alone.  Mode, results and error are never changed. *)
Theorem loadExample_fills_the_inputs (trim : string -> string)
    (text : string) (st : AnalysisPage.State) :
  let kept := List.filter (fun t => negb (String.eqb (trim t) ""))
                          (AnalysisPage.batchTexts st) in
  let st' := AnalysisPage.loadExample trim text st in
  match AnalysisPage.mode st with
  | AnalysisPage.batch =>
      AnalysisPage.batchTexts st' = (kept ++ [text])%list
      /\ (forall t, In t kept
                    <-> In t (AnalysisPage.batchTexts st) /\ trim t <> "")
      /\ kept `sublist_of` AnalysisPage.batchTexts st
      /\ last (AnalysisPage.batchTexts st') = Some text
      /\ (trim text <> "" ->
          Forall (fun t => trim t <> "") (AnalysisPage.batchTexts st')
          /\ AnalysisPage.validTexts trim st' = AnalysisPage.batchTexts st')
      /\ AnalysisPage.singleText st' = AnalysisPage.singleText st
  | AnalysisPage.single =>
      AnalysisPage.singleText st' = text
      /\ AnalysisPage.batchTexts st' = AnalysisPage.batchTexts st
  end
  /\ AnalysisPage.mode st' = AnalysisPage.mode st
  /\ AnalysisPage.results st' = AnalysisPage.results st
  /\ AnalysisPage.error st' = AnalysisPage.error st.
Proof.
  intros kept st'. subst st'. unfold AnalysisPage.loadExample.
  assert (Hkept : forall t, In t kept
            <-> In t (AnalysisPage.batchTexts st) /\ trim t <> "").
  { intros t. subst kept.
    rewrite List.filter_In, negb_true_iff, String.eqb_neq. reflexivity. }
  destruct (AnalysisPage.mode st) eqn:Hmode; simpl; [by repeat split|].
  split; [|by repeat split].
  unfold AnalysisPage.validTexts at 1, AnalysisPage.blank. fold kept.
  split; [reflexivity|]. split; [exact Hkept|].
  split; [apply filter_sublist|]. split; [apply last_snoc|].
  split; [|reflexivity]. intros Htext.
  assert (Hall : Forall (fun t => trim t <> "") (kept ++ [text])%list).
  { apply Forall_app. split; [|by repeat constructor].
    apply List.Forall_forall. intros t Ht. by apply Hkept in Ht as [_ Ht]. }
  split; [exact Hall|].
  unfold AnalysisPage.validTexts, AnalysisPage.blank. simpl. fold kept.
  induction Hall as [|t l Ht _ IH]; simpl; [reflexivity|].
  apply String.eqb_neq in Ht. by rewrite Ht, IH.
Qed.

(** X19. [removeBatchInput] removes exactly the input at the index and
    keeps the others in order; an index past the end removes nothing.
    Unlike [removeExample] it has no guard of its own: on a single input
    it leaves none. *)
Theorem removeBatchInput_removes_the_index (index : nat)
    (st : AnalysisPage.State) :
  let l := AnalysisPage.batchTexts st in
  let st' := AnalysisPage.removeBatchInput index st in
  AnalysisPage.batchTexts st' = base.delete index l
  /\ ((index < length l)%nat ->
      length (AnalysisPage.batchTexts st') = (length l - 1)%nat)
  /\ ((length l <= index)%nat -> st' = st)
  /\ (forall t, l = [t] -> index = 0%nat -> AnalysisPage.batchTexts st' = []).
Proof.
  intros l st'. subst l st'. unfold AnalysisPage.removeBatchInput. simpl.
  rewrite remove_index_is_delete. split; [reflexivity|]. split; [|split].
  - intros Hin. by rewrite length_delete by (by apply lookup_lt_is_Some_2).
  - intros Hout. rewrite list_delete_past_end by done. by destruct st.
  - intros t -> ->. reflexivity.
Qed.

Lemma removeBatchInput_removes_the_index_witness :
  AnalysisPage.batchTexts
    (AnalysisPage.removeBatchInput 1 two_texts_and_a_blank)
  = ["so good"; "so bad"].
Proof.
  destruct (removeBatchInput_removes_the_index 1 two_texts_and_a_blank)
    as (H & _).
  exact H.
Defined.

(** ** Deleting and the number of pages *)

(** X20. A successful delete never adds a page and removes at most one:
    the number of pages computed from the decremented total is the
    previous number or one less. *)
Theorem delete_drops_at_most_one_page (http : ApiService.DeleteEndpoint)
    (id : string) (st : LogsPage.State) :
  http id = true ->
  let st' := LogsPage.handleDelete http true id st in
  LogsPage.totalPages (LogsPage.total st')
    <= LogsPage.totalPages (LogsPage.total st)
    <= LogsPage.totalPages (LogsPage.total st') + 1.
Proof.
  intros Hok st'. subst st'.
  unfold LogsPage.handleDelete, ApiService.deleteAnalysis. rewrite Hok.
  simpl. unfold LogsPage.totalPages, Js.ceil_div, LogsPage.limit.
  pose proof (Z.div_mod (LogsPage.total st - 1 + 15 - 1) 15).
  pose proof (Z.mod_pos_bound (LogsPage.total st - 1 + 15 - 1) 15).
  pose proof (Z.div_mod (LogsPage.total st + 15 - 1) 15).
  pose proof (Z.mod_pos_bound (LogsPage.total st + 15 - 1) 15).
  lia.
Qed.

Lemma delete_drops_at_most_one_page_witness :
  LogsPage.totalPages
    (LogsPage.total (LogsPage.handleDelete (fun _ => true) true "rec-7"
                       sixteen_rows))
    <= LogsPage.totalPages (LogsPage.total sixteen_rows)
    <= LogsPage.totalPages
         (LogsPage.total (LogsPage.handleDelete (fun _ => true) true "rec-7"
                            sixteen_rows)) + 1.
Proof.
  exact (delete_drops_at_most_one_page (fun _ => true) "rec-7" sixteen_rows
           eq_refl).
Defined.
